(** * hw1.py: date-indexed queries over the confirmed-cases table

    The module [hw1.py] loads a wide-format table of cumulative confirmed
    cases (one row per country/region, one column per date) into the global
    [confirmed_cases] and answers three queries over it:
    [poland_cases_by_date], [top5_countries_by_date] and
    [no_new_cases_count], all of which build their column key with
    [get_date_str].

    The development below embeds these four functions, together with the
    parts of Python's [datetime] and [re] modules and of pandas that they
    call, and then states and proves the properties of the specification. *)

From Stdlib Require Import ZArith List String Ascii DecimalString Bool Lia.
From Stdlib Require Import Permutation Sorted OrderedTypeEx.
Import ListNotations.

Local Open Scope string_scope.
Local Open Scope list_scope.
Local Open Scope Z_scope.

(** ** Exceptions and results

    A Python call either returns a value or raises.  The exceptions that the
    four functions can raise are [ValueError] (the bounds check of
    [get_date_str], and [strptime] on a string that is not a calendar date),
    [KeyError] (a column label that the table does not have), [IndexError]
    ([.iloc[0]] on an empty selection) and [OverflowError] (date arithmetic
    leaving the supported range).  The specification calls the first three
    [InvalidDateError], [DateNotFoundError] and [CountryNotFoundError]. *)

Inductive exception : Set :=
| ValueError
| KeyError
| IndexError
| OverflowError.

Definition result (A : Type) : Type := (exception + A)%type.

Definition InvalidDateError : exception := ValueError.
Definition DateNotFoundError : exception := KeyError.
Definition CountryNotFoundError : exception := IndexError.

(** ** Python builtins *)

Module Py.

(** [str(n)] for an [int]: the decimal numeral, with a minus sign for
    negative numbers and no padding. *)
Definition str (n : Z) : string := NilZero.string_of_int (Z.to_int n).

(** [s[n:]]. *)
Fixpoint slice_from (n : nat) (s : string) : string :=
  match n, s with
  | O, _ => s
  | S n', String _ s' => slice_from n' s'
  | S _, EmptyString => EmptyString
  end.

(** [s.zfill(2)] restricted to unsigned numerals: what ["%02d"] prints for
    a non-negative number. *)
Definition zfill2 (s : string) : string :=
  match s with
  | EmptyString => "00"
  | String c EmptyString => String "0" (String c EmptyString)
  | _ => s
  end.

Definition is_digit (c : ascii) : bool :=
  ((48 <=? nat_of_ascii c) && (nat_of_ascii c <=? 57))%nat.

Definition digit_value (c : ascii) : option Z :=
  if is_digit c then Some (Z.of_nat (nat_of_ascii c) - 48) else None.

(** [s.split(sep)] for a one-character separator. *)
Fixpoint split (sep : ascii) (s : string) : list string :=
  match s with
  | EmptyString => [EmptyString]
  | String c s' =>
      if Ascii.eqb c sep then EmptyString :: split sep s'
      else match split sep s' with
           | [] => [String c EmptyString]
           | f :: fs => String c f :: fs
           end
  end.

End Py.

(** ** The date-key formatter

    [[
    def get_date_str(day: int, month: int, year: int = 2020):
        if not 1 <= day <= 31 or not 1 <= month <= 12 or not 2000 <= year <= 2020:
            raise ValueError("Incorrect arguments")
        return str(month) + '/' + str(day) + '/' + str(year)[2:]
    ]] *)

Definition get_date_str (day month year : Z) : result string :=
  if negb ((1 <=? day) && (day <=? 31))
     || negb ((1 <=? month) && (month <=? 12))
     || negb ((2000 <=? year) && (year <=? 2020))
  then inl ValueError
  else inr (Py.str month ++ "/" ++ Py.str day ++ "/"
              ++ Py.slice_from 2 (Py.str year))%string.

(** ** The part of [datetime] used by [no_new_cases_count]

    Dates are handled the way CPython's [datetime] does: a date is turned
    into its proleptic Gregorian ordinal (1 for 0001-01-01), days are added
    to the ordinal, and the ordinal is turned back into year, month, day. *)

Module Datetime.

Record date : Set := mkdate { year : Z; month : Z; day : Z }.

Definition MINYEAR : Z := 1.
Definition MAXYEAR : Z := 9999.
Definition MAXORDINAL : Z := 3652059.

Definition is_leap (y : Z) : bool :=
  (y mod 4 =? 0) && (negb (y mod 100 =? 0) || (y mod 400 =? 0)).

Definition DAYS_IN_MONTH (m : Z) : Z :=
  match m with
  | 1 => 31 | 2 => 28 | 3 => 31 | 4 => 30 | 5 => 31 | 6 => 30
  | 7 => 31 | 8 => 31 | 9 => 30 | 10 => 31 | 11 => 30 | 12 => 31
  | _ => -1
  end.

Definition DAYS_BEFORE_MONTH (m : Z) : Z :=
  match m with
  | 1 => 0 | 2 => 31 | 3 => 59 | 4 => 90 | 5 => 120 | 6 => 151
  | 7 => 181 | 8 => 212 | 9 => 243 | 10 => 273 | 11 => 304 | 12 => 334
  | _ => -1
  end.

Definition days_in_month (y m : Z) : Z :=
  if (m =? 2) && is_leap y then 29 else DAYS_IN_MONTH m.

Definition days_before_year (y : Z) : Z :=
  let y' := y - 1 in y' * 365 + y' / 4 - y' / 100 + y' / 400.

Definition days_before_month (y m : Z) : Z :=
  DAYS_BEFORE_MONTH m + (if (2 <? m) && is_leap y then 1 else 0).

(** [date.toordinal()]. *)
Definition toordinal (d : date) : Z :=
  days_before_year (year d) + days_before_month (year d) (month d) + day d.

Definition DI400Y : Z := 146097.
Definition DI100Y : Z := 36524.
Definition DI4Y : Z := 1461.

(** [date.fromordinal(n)]: the 400-, 100-, 4- and 1-year cycles are
    peeled off in turn, the month is estimated from the day of the year
    and corrected when the estimate overshoots. *)
Definition fromordinal (n : Z) : date :=
  let n := n - 1 in
  let n400 := n / DI400Y in
  let n := n mod DI400Y in
  let n100 := n / DI100Y in
  let n := n mod DI100Y in
  let n4 := n / DI4Y in
  let n := n mod DI4Y in
  let n1 := n / 365 in
  let n := n mod 365 in
  let y := n400 * 400 + 1 + n100 * 100 + n4 * 4 + n1 in
  if (n1 =? 4) || (n100 =? 4) then mkdate (y - 1) 12 31
  else
    let leapyear := (n1 =? 3) && (negb (n4 =? 24) || (n100 =? 3)) in
    let m := Z.shiftr (n + 50) 5 in
    let preceding :=
      DAYS_BEFORE_MONTH m + (if (2 <? m) && leapyear then 1 else 0) in
    if n <? preceding then
      let m := m - 1 in
      let preceding :=
        preceding
        - (DAYS_IN_MONTH m + (if (m =? 2) && leapyear then 1 else 0)) in
      mkdate y m (n - preceding + 1)
    else mkdate y m (n - preceding + 1).

(** The three directives of the format ['%m/%d/%y'] as [strptime] reads
    them: [%m] is [1[0-2]|0[1-9]|[1-9]], [%d] is
    [3[01]|[12]\d|0[1-9]|[1-9]| [1-9]] and [%y] is [\d\d]. *)
Definition two_digits (a b : ascii) : option Z :=
  match Py.digit_value a, Py.digit_value b with
  | Some x, Some y => Some (10 * x + y)
  | _, _ => None
  end.

Definition directive_m (s : string) : option Z :=
  match s with
  | String a EmptyString =>
      match Py.digit_value a with
      | Some x => if 1 <=? x then Some x else None
      | None => None
      end
  | String a (String b EmptyString) =>
      match two_digits a b with
      | Some x => if (1 <=? x) && (x <=? 12) then Some x else None
      | None => None
      end
  | _ => None
  end.

Definition directive_d (s : string) : option Z :=
  match s with
  | String a EmptyString =>
      match Py.digit_value a with
      | Some x => if 1 <=? x then Some x else None
      | None => None
      end
  | String a (String b EmptyString) =>
      if Ascii.eqb a " " then
        match Py.digit_value b with
        | Some x => if 1 <=? x then Some x else None
        | None => None
        end
      else
        match two_digits a b with
        | Some x => if (1 <=? x) && (x <=? 31) then Some x else None
        | None => None
        end
  | _ => None
  end.

Definition directive_y (s : string) : option Z :=
  match s with
  | String a (String b EmptyString) => two_digits a b
  | _ => None
  end.

(** [datetime.strptime(s, '%m/%d/%y')]: the string has to match the
    format as a whole, a two-digit year up to 68 is read as 20xx and above
    as 19xx, and the day has to exist in the month. *)
Definition strptime (s : string) : result date :=
  match Py.split "/" s with
  | [fm; fd; fy] =>
      match directive_m fm, directive_d fd, directive_y fy with
      | Some m, Some d, Some y =>
          let y := if y <=? 68 then y + 2000 else y + 1900 in
          if d <=? days_in_month y m then inr (mkdate y m d)
          else inl ValueError
      | _, _, _ => inl ValueError
      end
  | _ => inl ValueError
  end.

(** [d - timedelta(days=n)]. *)
Definition sub_days (d : date) (n : Z) : result date :=
  let o := toordinal d - n in
  if (0 <? o) && (o <=? MAXORDINAL) then inr (fromordinal o)
  else inl OverflowError.

(** [d.strftime('%m/%d/%y')]: each field zero-padded to two digits. *)
Definition strftime (d : date) : string :=
  (Py.zfill2 (Py.str (month d)) ++ "/" ++ Py.zfill2 (Py.str (day d)) ++ "/"
     ++ Py.zfill2 (Py.str (year d mod 100)))%string.

End Datetime.

(** ** The two regular-expression substitutions *)

Module Re.

(** [re.sub(r"^0", "", s)]: a single leading zero is dropped. *)
Definition sub_leading_zero (s : string) : string :=
  match s with
  | String "0" s' => s'
  | _ => s
  end.

(** [re.sub(r"/0", "/", s)]: every occurrence of ["/0"], found from left
    to right without overlap, is replaced by ["/"]. *)
Fixpoint sub_slash_zero (s : string) : string :=
  match s with
  | EmptyString => EmptyString
  | String c s' =>
      if Ascii.eqb c "/" then
        match s' with
        | String "0" s'' => String "/" (sub_slash_zero s'')
        | _ => String c (sub_slash_zero s')
        end
      else String c (sub_slash_zero s')
  end.

End Re.

(** The key of the previous day as [no_new_cases_count] computes it:
    [[
    prev_date = (pd.datetime.strptime(date, date_format) - timedelta(days=1)).strftime(date_format)
    prev_date = re.sub(r"^0", "", prev_date)
    prev_date = re.sub(r"/0", "/", prev_date)
    ]] *)
Definition prev_date_str (date : string) : result string :=
  match Datetime.strptime date with
  | inl e => inl e
  | inr d =>
      match Datetime.sub_days d 1 with
      | inl e => inl e
      | inr p =>
          inr (Re.sub_slash_zero (Re.sub_leading_zero (Datetime.strftime p)))
      end
  end.

(** ** The table

    A row of the table carries its ["Country/Region"] label and one case
    count, an integer, per date column; the table lists its date columns and
    its rows in file order.  Several rows may carry the same label.  A row
    is read only at the columns the table lists: every access goes through
    a column lookup, which raises [KeyError] on any other label. *)

Record Row : Type := mkRow { Country_Region : string; cases : string -> Z }.

Record DataFrame : Type :=
  mkDataFrame { columns : list string; rows : list Row }.

(** A row written as the list of its cells. *)
Fixpoint cells (l : list (string * Z)) (c : string) : Z :=
  match l with
  | [] => 0
  | (k, v) :: l' => if String.eqb k c then v else cells l' c
  end.

(** ** The part of pandas used by the three queries *)

(** The sorting algorithm behind [sort_values] is its [kind] argument, by
    default ['quicksort']: numpy's [argsort], which maps an array of values
    to the array of their positions.  The library promises of it what
    [is_argsort] says, that the positions come out in ascending order of
    their values; the order among equal values is the algorithm's
    business. *)
Definition argsort_kind : Type := list Z -> list nat.

Definition is_argsort (argsort : argsort_kind) : Prop :=
  forall v,
    Permutation (argsort v) (seq 0 (List.length v))
    /\ StronglySorted Z.le (map (fun i => nth i v 0) (argsort v)).

Module Pandas.

Definition has_column (df : DataFrame) (c : string) : bool :=
  existsb (String.eqb c) (columns df).

(** [df[c]] for a date column [c]. *)
Definition getitem (df : DataFrame) (c : string) : result (list Z) :=
  if has_column df c then inr (map (fun r => cases r c) (rows df))
  else inl KeyError.

(** [df["Country/Region"]]. *)
Definition country_col (df : DataFrame) : list string :=
  map Country_Region (rows df).

(** [df[["Country/Region", c]]]: the two-column frame. *)
Definition select1 (df : DataFrame) (c : string)
  : result (list (string * Z)) :=
  if has_column df c
  then inr (map (fun r => (Country_Region r, cases r c)) (rows df))
  else inl KeyError.

(** [df[["Country/Region", c1, c2]]]: the three-column frame. *)
Definition select2 (df : DataFrame) (c1 c2 : string)
  : result (list (string * (Z * Z))) :=
  if has_column df c1 && has_column df c2
  then inr (map (fun r => (Country_Region r, (cases r c1, cases r c2)))
              (rows df))
  else inl KeyError.

(** [series == value] and [series1 != series2]. *)
Definition eq_value (s : list string) (v : string) : list bool :=
  map (fun x => String.eqb x v) s.

Definition ne (s1 s2 : list Z) : list bool :=
  map (fun p => negb (fst p =? snd p)) (combine s1 s2).

(** Selection of the entries at which a boolean mask is set. *)
Definition boolean_mask {A : Type} (mask : list bool) (l : list A)
  : list A :=
  map snd (filter fst (combine mask l)).

(** [df.loc[mask]]. *)
Definition loc (df : DataFrame) (mask : list bool) : DataFrame :=
  mkDataFrame (columns df) (boolean_mask mask (rows df)).

(** [series.iloc[0]]. *)
Definition iloc0 (s : list Z) : result Z :=
  match s with
  | [] => inl IndexError
  | x :: _ => inr x
  end.

(** A date column that holds data is an [int64] column; arithmetic on it
    wraps around at 64 bits, two's complement. *)
Definition int64 (z : Z) : Z := (z + 2 ^ 63) mod 2 ^ 64 - 2 ^ 63.

(** The sums of [groupby(...).sum()]: one entry per label, in ascending
    order of the labels ([sort=True] is the default); the [int64]
    accumulator of a label starts at zero and takes the label's rows one by
    one. *)
Fixpoint group_insert (k : string) (v : Z) (g : list (string * Z))
  : list (string * Z) :=
  match g with
  | [] => [(k, int64 (0 + v))]
  | (k', v') :: g' =>
      match String.compare k k' with
      | Eq => (k', int64 (v' + v)) :: g'
      | Lt => (k, int64 (0 + v)) :: g
      | Gt => (k', v') :: group_insert k v g'
      end
  end.

Definition group_sum (frame : list (string * Z)) : list (string * Z) :=
  fold_left (fun g r => group_insert (fst r) (snd r) g) frame [].

(** [frame.groupby(["Country/Region"]).sum()].  [sum] keeps the numeric
    columns only.  A date column read from a file without data rows holds
    nothing to infer a number type from and is an [object] column: the
    grouped frame of a frame without rows has no value column, [None]
    below. *)
Definition groupby_sum (frame : list (string * Z))
  : option (list (string * Z)) :=
  match frame with
  | [] => None
  | _ :: _ => Some (group_sum frame)
  end.

(** [a[indexer]] for an array [a] and an array of positions. *)
Definition take {A : Type} (d : A) (a : list A) (indexer : list nat)
  : list A :=
  map (fun i => nth i a d) indexer.

(** [nargsort]: for a descending sort the values and their positions are
    reversed, sorted in ascending order, and the outcome is reversed. *)
Definition nargsort (kind : argsort_kind) (items : list Z)
  (ascending : bool) : list nat :=
  let idx := seq 0 (List.length items) in
  if ascending then take O idx (kind items)
  else rev (take O (rev idx) (kind (rev items))).

(** The rows of a frame in the order of its value column. *)
Definition sort_rows (kind : argsort_kind) (ascending : bool)
  (frame : list (string * Z)) : list (string * Z) :=
  take (EmptyString, 0) frame (nargsort kind (map snd frame) ascending).

(** [frame.sort_values(by=c, ascending=...)] on a grouped frame: the column
    [c] is looked up first, and a frame without it raises [KeyError]. *)
Definition sort_values (kind : argsort_kind) (ascending : bool)
  (frame : option (list (string * Z))) : result (list (string * Z)) :=
  match frame with
  | None => inl KeyError
  | Some rows => inr (sort_rows kind ascending rows)
  end.

Definition head {A : Type} (n : nat) (frame : list A) : list A :=
  firstn n frame.

Definition index (frame : list (string * Z)) : list string :=
  map fst frame.

End Pandas.

(** ** The module's state and its computations

    The table lives in the module-level variable [confirmed_cases].  A
    function of the module is a computation over the module's globals that
    returns a value or raises, and hands the globals on. *)

Record globals : Type := mkGlobals { confirmed_cases : DataFrame }.

Definition M (A : Type) : Type := globals -> result A * globals.

Definition ret {A : Type} (a : A) : M A := fun g => (inr a, g).

Definition raise {A : Type} (e : exception) : M A := fun g => (inl e, g).

Definition bind {A B : Type} (m : M A) (k : A -> M B) : M B :=
  fun g =>
    match m g with
    | (inr a, g') => k a g'
    | (inl e, g') => (inl e, g')
    end.

Definition lift {A : Type} (r : result A) : M A := fun g => (r, g).

Definition read_confirmed_cases : M DataFrame :=
  fun g => (inr (confirmed_cases g), g).

Notation "x <- m ;; k" := (bind m (fun x => k))
  (at level 61, m at next level, right associativity).

(** ** The three queries *)

(** [[
    date = get_date_str(day, month, year)
    poland_data = confirmed_cases.loc[confirmed_cases[country_col_name] == "Poland"]
    return poland_data[date].iloc[0]
    ]] *)
Definition poland_cases_by_date (day month year : Z) : M Z :=
  date <- lift (get_date_str day month year) ;;
  df <- read_confirmed_cases ;;
  let poland_data :=
    Pandas.loc df (Pandas.eq_value (Pandas.country_col df) "Poland") in
  col <- lift (Pandas.getitem poland_data date) ;;
  lift (Pandas.iloc0 col).

(** [[
    date = get_date_str(day, month, year)
    infections_per_country = confirmed_cases[[country_col_name, date]].groupby([country_col_name]).sum()
    ranking = infections_per_country.sort_values(by=date, ascending=False).head(5)
    return list(ranking.index)
    ]] *)
Definition top5_countries_by_date (quicksort : argsort_kind)
  (day month year : Z) : M (list string) :=
  date <- lift (get_date_str day month year) ;;
  df <- read_confirmed_cases ;;
  frame <- lift (Pandas.select1 df date) ;;
  let infections_per_country := Pandas.groupby_sum frame in
  sorted <- lift (Pandas.sort_values quicksort false infections_per_country) ;;
  let ranking := Pandas.head 5 sorted in
  ret (Pandas.index ranking).

(** [[
    date = get_date_str(day, month, year)
    prev_date = ...
    infections_per_country = confirmed_cases[[country_col_name, date, prev_date]]
    filtered_data = infections_per_country.loc[infections_per_country[date] != infections_per_country[prev_date]]
    return len(filtered_data.index)
    ]] *)
Definition no_new_cases_count (day month year : Z) : M Z :=
  date <- lift (get_date_str day month year) ;;
  prev_date <- lift (prev_date_str date) ;;
  df <- read_confirmed_cases ;;
  infections_per_country <- lift (Pandas.select2 df date prev_date) ;;
  let today := map (fun r => fst (snd r)) infections_per_country in
  let before := map (fun r => snd (snd r)) infections_per_country in
  let filtered_data :=
    Pandas.boolean_mask (Pandas.ne today before) infections_per_country in
  ret (Z.of_nat (List.length filtered_data)).

(** ** The insertion sort that numpy's ['quicksort'] runs on short arrays

    An array of at most sixteen entries is sorted by straight insertion:
    position [i] moves left past the positions whose value is greater. *)

Fixpoint insert_index (v : list Z) (i : nat) (sorted : list nat) : list nat :=
  match sorted with
  | [] => [i]
  | j :: sorted' =>
      if nth i v 0 <? nth j v 0 then i :: sorted
      else j :: insert_index v i sorted'
  end.

Definition insertion_argsort : argsort_kind := fun v =>
  fold_left (fun sorted i => insert_index v i sorted) (seq 0 (List.length v)) [].

(** ** The notions the specification speaks of *)

(** *** Bounds and calendar *)

Definition in_bounds (day month year : Z) : Prop :=
  1 <= day <= 31 /\ 1 <= month <= 12 /\ 2000 <= year <= 2020.

Definition leap_year (y : Z) : bool :=
  ((y mod 4 =? 0) && negb (y mod 100 =? 0)) || (y mod 400 =? 0).

Definition month_length (y m : Z) : Z :=
  match m with
  | 2 => if leap_year y then 29 else 28
  | 4 | 6 | 9 | 11 => 30
  | _ => 31
  end.

(** A date of the calendar: the day exists in its month. *)
Definition calendar_date (day month year : Z) : Prop :=
  1 <= month <= 12 /\ 1 <= day <= month_length year month.

(** The calendar day before (day, month, year), as (day, month, year). *)
Definition previous_day (day month year : Z) : Z * Z * Z :=
  if 1 <? day then (day - 1, month, year)
  else if 1 <? month then (month_length year (month - 1), month - 1, year)
  else (31, 12, year - 1).

(** Strictly after 1 January 2010. *)
Definition after_1_Jan_2010 (day month year : Z) : Prop :=
  2010 < year \/ (year = 2010 /\ (1 < month \/ 1 < day)).

(** *** Date keys *)

Definition digit (n : Z) : ascii := ascii_of_nat (48 + Z.to_nat n).

(** A number below 100 written without padding, and written with exactly
    two digits. *)
Definition unpadded (n : Z) : string :=
  if n <? 10 then String (digit n) EmptyString
  else String (digit (n / 10)) (String (digit (n mod 10)) EmptyString).

Definition two_digit (n : Z) : string :=
  String (digit (n / 10)) (String (digit (n mod 10)) EmptyString).

(** The key the specification's formatter sentence describes: no component
    padded. *)
Definition unpadded_key (day month year : Z) : string :=
  (unpadded month ++ "/" ++ unpadded day ++ "/" ++ unpadded (year mod 100))
    %string.

(** The key of the table's columns, [M/D/YY]: month and day unpadded, the
    year as its last two digits. *)
Definition DateKey (day month year : Z) : string :=
  (unpadded month ++ "/" ++ unpadded day ++ "/" ++ two_digit (year mod 100))
    %string.

Definition DateKey_of (dmy : Z * Z * Z) : string :=
  let '(d, m, y) := dmy in DateKey d m y.

(** *** Counting and ranking *)

Definition is_column (df : DataFrame) (c : string) : Prop :=
  In c (columns df).

(** The rows whose value at [date] differs from their value at [prev]. *)
Definition changed (date prev : string) (r : Row) : bool :=
  negb (cases r date =? cases r prev).

Definition changed_rows (df : DataFrame) (date prev : string) : Z :=
  Z.of_nat (List.length (filter (changed date prev) (rows df))).

Definition sumZ (l : list Z) : Z := fold_right Z.add 0 l.

(** The aggregated count of a country: the sum at [date] over all rows that
    carry its label. *)
Definition country_total (df : DataFrame) (date c : string) : Z :=
  sumZ (map (fun r => cases r date)
          (filter (fun r => String.eqb (Country_Region r) c) (rows df))).

Definition country_labels (df : DataFrame) : list string :=
  map Country_Region (rows df).

Definition distinct_countries (df : DataFrame) : nat :=
  List.length (nodup string_dec (country_labels df)).

(** The labels in the order of their first appearance. *)
Fixpoint first_appearances (l : list string) : list string :=
  match l with
  | [] => []
  | x :: l' =>
      x :: filter (fun y => negb (String.eqb y x)) (first_appearances l')
  end.

(** A stable descending sort by count: an entry goes in front of the first
    entry that is not greater, so entries with equal counts keep their
    order. *)
Fixpoint insert_desc (x : string * Z) (l : list (string * Z))
  : list (string * Z) :=
  match l with
  | [] => [x]
  | y :: l' => if snd y <=? snd x then x :: l else y :: insert_desc x l'
  end.

Definition stable_sort_desc (l : list (string * Z)) : list (string * Z) :=
  fold_right insert_desc [] l.

(** The ranking the specification's top-N sentences describe: groups in
    order of first appearance, sorted by total, descending and stable. *)
Definition first_appearance_ranking (df : DataFrame) (date : string)
  : list string :=
  map fst
    (stable_sort_desc
       (map (fun c => (c, country_total df date c))
          (first_appearances (country_labels df)))).

(** The aggregated count as the table's 64-bit integers hold it, and the
    tables on which it is the aggregated count itself. *)
Definition int64_total (df : DataFrame) (date c : string) : Z :=
  Pandas.int64 (country_total df date c).

Definition fits_int64 (z : Z) : Prop := - 2 ^ 63 <= z < 2 ^ 63.

Definition totals_fit (df : DataFrame) (date : string) : Prop :=
  forall c, In c (country_labels df) -> fits_int64 (country_total df date c).

(** What the ranking of [top5_countries_by_date] is, up to the order among
    equal totals: every label once, each with its total, totals
    descending. *)
Definition ranking_of (df : DataFrame) (date : string)
  (ranking : list (string * Z)) : Prop :=
  NoDup (map fst ranking)
  /\ (forall c, In c (map fst ranking) <-> In c (country_labels df))
  /\ (forall c n, In (c, n) ranking -> n = country_total df date c)
  /\ StronglySorted Z.ge (map snd ranking).

(** The same with the totals as the 64-bit integers hold them. *)
Definition int64_ranking_of (df : DataFrame) (date : string)
  (ranking : list (string * Z)) : Prop :=
  NoDup (map fst ranking)
  /\ (forall c, In c (map fst ranking) <-> In c (country_labels df))
  /\ (forall c n, In (c, n) ranking -> n = int64_total df date c)
  /\ StronglySorted Z.ge (map snd ranking).

(** *** Frames

    The two-column frame of a date, the rows a mask on the label selects,
    the sum a frame holds for a label, and the order of the labels. *)

Definition is_Poland (r : Row) : bool :=
  String.eqb (Country_Region r) "Poland".

Definition frame_of (df : DataFrame) (date : string) : list (string * Z) :=
  map (fun r => (Country_Region r, cases r date)) (rows df).

Definition frame_total (frame : list (string * Z)) (c : string) : Z :=
  sumZ (map snd (filter (fun p => String.eqb (fst p) c) frame)).

(** Every sum a grouped frame holds is a 64-bit integer. *)
Definition sums_int64 (g : list (string * Z)) : Prop :=
  Forall (fun p => Pandas.int64 (snd p) = snd p) g.

Definition label_lt : string -> string -> Prop := String_as_OT.lt.

Definition key_lt (p q : string * Z) : Prop := label_lt (fst p) (fst q).

(** *** Exhaustive checks over the formatter's domain *)

Definition Zrange (lo : Z) (n : nat) : list Z :=
  map (fun i => lo + Z.of_nat i) (seq 0 n).

Definition all_in_bounds (P : Z -> Z -> Z -> bool) : bool :=
  forallb (fun y =>
    forallb (fun m =>
      forallb (fun d => P d m y) (Zrange 1 31)) (Zrange 1 12))
    (Zrange 2000 21).

Definition calendar_dateb (day month year : Z) : bool :=
  (1 <=? month) && (month <=? 12) && (1 <=? day)
  && (day <=? month_length year month).

Definition after_1_Jan_2010b (day month year : Z) : bool :=
  (2010 <? year) || ((year =? 2010) && ((1 <? month) || (1 <? day))).

Definition is_string (r : result string) (s : string) : bool :=
  match r with
  | inr s' => String.eqb s' s
  | inl _ => false
  end.

Definition is_error {A : Type} (r : result A) (e : exception) : bool :=
  match r, e with
  | inl ValueError, ValueError => true
  | inl KeyError, KeyError => true
  | inl IndexError, IndexError => true
  | inl OverflowError, OverflowError => true
  | _, _ => false
  end.

(** The formatter returns [DateKey]. *)
Definition check_format (d m y : Z) : bool :=
  is_string (get_date_str d m y) (DateKey d m y).

(** On a calendar date after 1 January 2010 the key computed for the
    previous day is the [DateKey] of the previous calendar day. *)
Definition check_prev (d m y : Z) : bool :=
  if calendar_dateb d m y && after_1_Jan_2010b d m y
  then is_string (prev_date_str (DateKey d m y))
         (DateKey_of (previous_day d m y))
  else true.

(** On a calendar date some key is computed for the previous day, and it is
    not the date's own key; on any other date [strptime] raises. *)
Definition check_parse (d m y : Z) : bool :=
  if calendar_dateb d m y
  then match prev_date_str (DateKey d m y) with
       | inr p => negb (String.eqb p (DateKey d m y))
       | inl _ => false
       end
  else is_error (prev_date_str (DateKey d m y)) ValueError.

(** ** Tables used as examples *)

Definition table_of (cols : list string) (rs : list (string * list Z))
  : DataFrame :=
  mkDataFrame cols
    (map (fun r => mkRow (fst r) (cells (combine cols (snd r)))) rs).

(** Two days of a small table in which Poland and China have several rows. *)
Definition sample : DataFrame :=
  table_of ["2/26/20"; "2/27/20"]
    [ ("Italy", [453; 655]);
      ("China", [100; 100]);
      ("Poland", [5; 7]);
      ("Iran", [139; 245]);
      ("China", [65000; 65500]);
      ("Poland", [1; 1]);
      ("Korea, South", [1261; 1766]);
      ("Cruise Ship", [705; 705]);
      ("France", [18; 38]) ].

(** The same two tied countries in both row orders. *)
Definition tied_BA : DataFrame :=
  table_of ["1/1/20"] [ ("B", [1]); ("A", [1]) ].

Definition tied_AB : DataFrame :=
  table_of ["1/1/20"] [ ("A", [1]); ("B", [1]) ].

(** Two consecutive days of January 2005. *)
Definition january_2005 : DataFrame :=
  table_of ["1/1/05"; "1/2/05"] [ ("Poland", [3; 4]); ("Italy", [2; 2]) ].

(** ** Further notions, for the properties beyond the specification *)

Definition date_of (dmy : Z * Z * Z) : Datetime.date :=
  let '(d, m, y) := dmy in Datetime.mkdate y m d.

Definition unpadded_key_of (dmy : Z * Z * Z) : string :=
  let '(d, m, y) := dmy in unpadded_key d m y.

(** The fields of a key as the directives of [strptime] read them, before
    the century is chosen and the day is checked against the month. *)
Definition read_fields (s : string) : option (Z * Z * Z) :=
  match Py.split "/" s with
  | [fm; fd; fy] =>
      match Datetime.directive_m fm, Datetime.directive_d fd,
            Datetime.directive_y fy with
      | Some m, Some d, Some y => Some (d, m, y)
      | _, _, _ => None
      end
  | _ => None
  end.

Definition is_date (r : result Datetime.date) (dmy : Z * Z * Z) : bool :=
  let '(d, m, y) := dmy in
  match r with
  | inr t =>
      (Datetime.year t =? y) && (Datetime.month t =? m)
      && (Datetime.day t =? d)
  | inl _ => false
  end.

Definition is_fields (o : option (Z * Z * Z)) (dmy : Z * Z * Z) : bool :=
  let '(d, m, y) := dmy in
  match o with
  | Some (d', m', y') => (d' =? d) && (m' =? m) && (y' =? y)
  | None => false
  end.

Definition first_of_2000 (day month year : Z) : Prop :=
  day = 1 /\ month = 1 /\ year = 2000.

Definition first_of_2000b (day month year : Z) : bool :=
  (day =? 1) && (month =? 1) && (year =? 2000).

(** On a calendar date the key parses back to the date. *)
Definition check_roundtrip (d m y : Z) : bool :=
  if calendar_dateb d m y
  then is_date (Datetime.strptime (DateKey d m y)) (d, m, y)
  else true.

(** The fields of a key are the month, the day and the last two digits of
    the year it was made from. *)
Definition check_fields (d m y : Z) : bool :=
  is_fields (read_fields (DateKey d m y)) (d, m, y mod 100).

(** On a calendar date the day before is the previous calendar day, and its
    key comes out with no field padded. *)
Definition check_previous (d m y : Z) : bool :=
  if calendar_dateb d m y
  then is_date (Datetime.sub_days (Datetime.mkdate y m d) 1)
         (previous_day d m y)
       && is_string (prev_date_str (DateKey d m y))
            (unpadded_key_of (previous_day d m y))
  else true.

(** The key computed for the previous day is the column key of that day
    exactly after 1 January 2010 and on 1 January 2000. *)
Definition check_extent (d m y : Z) : bool :=
  if calendar_dateb d m y
  then Bool.eqb
         (is_string (prev_date_str (DateKey d m y))
            (DateKey_of (previous_day d m y)))
         (after_1_Jan_2010b d m y || first_of_2000b d m y)
  else true.

(** Rows whose count went up, and rows whose count went down. *)
Definition increased (date prev : string) (r : Row) : bool :=
  cases r prev <? cases r date.

Definition decreased (date prev : string) (r : Row) : bool :=
  cases r date <? cases r prev.

Definition count_rows (f : Row -> bool) (df : DataFrame) : Z :=
  Z.of_nat (List.length (filter f (rows df))).

(** No two countries of the table have the same total at [date]. *)
Definition distinct_totals (df : DataFrame) (date : string) : Prop :=
  forall c c',
    In c (country_labels df) -> In c' (country_labels df) ->
    country_total df date c = country_total df date c' -> c = c'.

Definition total_gt (p q : string * Z) : Prop := snd p > snd q.


Definition merged : DataFrame :=
  table_of ["3/1/20"] [ ("Iran", [20]); ("China", [100]); ("Italy", [30]) ].

(** A table that has a column and no row. *)
Definition no_rows : DataFrame := mkDataFrame ["1/1/20"] [].

(** A table in which the rows of Poland add up to 2^63, one more than the
    largest 64-bit integer. *)
Definition overflowing : DataFrame :=
  table_of ["1/1/20"]
    [ ("Poland", [9223372036854775807]); ("B", [5]); ("Poland", [1]) ].

(** * Properties *)

(** ** Results of computations *)

Lemma bind_lift_inr {A B : Type} (r : result A) (a : A) (k : A -> M B) g :
  r = inr a -> bind (lift r) k g = k a g.
Proof. intros ->. reflexivity. Qed.

Lemma bind_lift_inl {A B : Type} (r : result A) (e : exception)
  (k : A -> M B) g :
  r = inl e -> bind (lift r) k g = (inl e, g).
Proof. intros ->. reflexivity. Qed.

Lemma is_string_true (r : result string) (s : string) :
  is_string r s = true -> r = inr s.
Proof.
  destruct r as [e | s']; simpl; [discriminate |].
  intros H. apply String.eqb_eq in H. now subst.
Qed.

Lemma is_error_true {A : Type} (r : result A) (e : exception) :
  is_error r e = true -> r = inl e.
Proof.
  destruct r as [[] | a], e; simpl; intros H; try discriminate H; reflexivity.
Qed.

(** ** Exhaustive checks *)

Lemma Zrange_In (lo : Z) (n : nat) (z : Z) :
  lo <= z < lo + Z.of_nat n -> In z (Zrange lo n).
Proof.
  intros H. unfold Zrange. apply in_map_iff.
  exists (Z.to_nat (z - lo)). split; [lia |].
  apply in_seq. lia.
Qed.

Lemma all_in_bounds_spec (P : Z -> Z -> Z -> bool) :
  all_in_bounds P = true ->
  forall d m y, in_bounds d m y -> P d m y = true.
Proof.
  unfold all_in_bounds, in_bounds. intros H d m y (Hd & Hm & Hy).
  rewrite forallb_forall in H.
  specialize (H y (Zrange_In 2000 21 y ltac:(lia))).
  rewrite forallb_forall in H.
  specialize (H m (Zrange_In 1 12 m ltac:(lia))).
  rewrite forallb_forall in H.
  exact (H d (Zrange_In 1 31 d ltac:(lia))).
Qed.

Lemma check_format_all : all_in_bounds check_format = true.
Proof. vm_compute. reflexivity. Qed.

Lemma check_prev_all : all_in_bounds check_prev = true.
Proof. vm_compute. reflexivity. Qed.

Lemma check_parse_all : all_in_bounds check_parse = true.
Proof. vm_compute. reflexivity. Qed.

Lemma calendar_dateb_true d m y :
  calendar_date d m y -> calendar_dateb d m y = true.
Proof.
  unfold calendar_date, calendar_dateb. intros ((H1 & H2) & H3 & H4).
  repeat (apply andb_true_intro; split); apply Z.leb_le; assumption.
Qed.

Lemma calendar_dateb_false d m y :
  ~ calendar_date d m y -> calendar_dateb d m y = false.
Proof.
  unfold calendar_date, calendar_dateb. intros H.
  apply not_true_is_false. intros Hb. apply H.
  repeat (apply andb_prop in Hb; destruct Hb as [Hb ?]).
  rewrite !Z.leb_le in *. lia.
Qed.

Lemma after_1_Jan_2010b_true d m y :
  after_1_Jan_2010 d m y -> after_1_Jan_2010b d m y = true.
Proof.
  unfold after_1_Jan_2010, after_1_Jan_2010b.
  intros [H | (-> & [H | H])].
  - apply (proj2 (Z.ltb_lt _ _)) in H. rewrite H. reflexivity.
  - apply (proj2 (Z.ltb_lt _ _)) in H. rewrite H. reflexivity.
  - apply (proj2 (Z.ltb_lt _ _)) in H. rewrite H.
    simpl. apply orb_true_r.
Qed.

(** ** The formatter *)

Lemma get_date_str_checks (d m y : Z) :
  get_date_str d m y =
  if (1 <=? d) && (d <=? 31) && ((1 <=? m) && (m <=? 12))
     && ((2000 <=? y) && (y <=? 2020))
  then inr (Py.str m ++ "/" ++ Py.str d ++ "/"
              ++ Py.slice_from 2 (Py.str y))%string
  else inl ValueError.
Proof.
  unfold get_date_str.
  destruct ((1 <=? d) && (d <=? 31)), ((1 <=? m) && (m <=? 12)),
    ((2000 <=? y) && (y <=? 2020)); reflexivity.
Qed.

Lemma in_bounds_checks (d m y : Z) :
  in_bounds d m y <->
  (1 <=? d) && (d <=? 31) && ((1 <=? m) && (m <=? 12))
  && ((2000 <=? y) && (y <=? 2020)) = true.
Proof.
  unfold in_bounds. rewrite !andb_true_iff, !Z.leb_le. tauto.
Qed.

Lemma get_date_str_out_of_bounds (d m y : Z) :
  ~ in_bounds d m y -> get_date_str d m y = inl ValueError.
Proof.
  intros H. rewrite get_date_str_checks.
  rewrite in_bounds_checks in H.
  apply not_true_is_false in H. now rewrite H.
Qed.

Lemma get_date_str_returns (d m y : Z) (s : string) :
  get_date_str d m y = inr s -> in_bounds d m y.
Proof.
  rewrite get_date_str_checks, in_bounds_checks.
  destruct (_ && _); [reflexivity | discriminate].
Qed.

Lemma get_date_str_in_bounds (d m y : Z) :
  in_bounds d m y -> get_date_str d m y = inr (DateKey d m y).
Proof.
  intros H. apply is_string_true.
  exact (all_in_bounds_spec check_format check_format_all d m y H).
Qed.

Lemma get_date_str_DateKey (d m y : Z) (s : string) :
  get_date_str d m y = inr s -> s = DateKey d m y.
Proof.
  intros H. pose proof (get_date_str_returns _ _ _ _ H) as Hb.
  rewrite (get_date_str_in_bounds _ _ _ Hb) in H. now inversion H.
Qed.

Lemma unpadded_two_digit (n : Z) : 10 <= n -> unpadded n = two_digit n.
Proof.
  intros H. unfold unpadded.
  destruct (Z.ltb_spec n 10); [lia | reflexivity].
Qed.

(** C4, as amended: within the bounds the formatter returns
    month/day/year with month and day written without leading zeros and the
    year written as its last two digits, always two characters; from 2010 on
    this is the year modulo 100 without leading zeros. *)
Theorem get_date_str_format (day month year : Z) :
  in_bounds day month year ->
  get_date_str day month year
  = inr (unpadded month ++ "/" ++ unpadded day ++ "/"
           ++ two_digit (year mod 100))%string
  /\ (2010 <= year ->
      get_date_str day month year = inr (unpadded_key day month year)).
Proof.
  intros H. split.
  - exact (get_date_str_in_bounds _ _ _ H).
  - intros Hy. rewrite (get_date_str_in_bounds _ _ _ H).
    unfold DateKey, unpadded_key.
    rewrite (unpadded_two_digit (year mod 100)); [reflexivity |].
    destruct H as (_ & _ & Hy'). 
    replace year with (2000 + (year - 2000)) by lia.
    rewrite <- Z.add_mod_idemp_l by lia. simpl (2000 mod 100).
    rewrite Z.add_0_l, Z.mod_small; lia.
Qed.

Lemma get_date_str_format_witness :
  get_date_str 7 3 2020 = inr "3/7/20"
  /\ get_date_str 1 1 2005 = inr "1/1/05".
Proof.
  split.
  - exact (proj1 (get_date_str_format 7 3 2020 ltac:(unfold in_bounds; lia))).
  - exact (proj1 (get_date_str_format 1 1 2005 ltac:(unfold in_bounds; lia))).
Defined.

(** C4, as stated, fails on 1 January 2005: the year of the key is ["05"],
    which has a leading zero, where the year modulo 100 without leading
    zeros is ["5"]. *)
Lemma get_date_str_pads_the_year :
  in_bounds 1 1 2005
  /\ get_date_str 1 1 2005 = inr "1/1/05"
  /\ unpadded_key 1 1 2005 = "1/1/5"
  /\ get_date_str 1 1 2005 <> inr (unpadded_key 1 1 2005).
Proof.
  split; [unfold in_bounds; lia |].
  split; [reflexivity |]. split; [reflexivity |].
  vm_compute. discriminate.
Qed.

(** C5: the formatter raises exactly when day, month or year is out of
    bounds, the error is then always the invalid-date error, and the length
    of the month is not checked: 31 February 2020 is formatted. *)
Theorem get_date_str_raises_iff (day month year : Z) :
  (get_date_str day month year = inl InvalidDateError
   <-> ~ (1 <= day <= 31 /\ 1 <= month <= 12 /\ 2000 <= year <= 2020))
  /\ (forall e, get_date_str day month year = inl e -> e = InvalidDateError)
  /\ get_date_str 31 2 2020 = inr "2/31/20".
Proof.
  split; [| split].
  - split.
    + intros H Hb. rewrite (get_date_str_in_bounds _ _ _ Hb) in H.
      discriminate.
    + apply get_date_str_out_of_bounds.
  - intros e. rewrite get_date_str_checks.
    destruct (_ && _); [discriminate |]. now intros [= <-].
  - reflexivity.
Qed.

(** ** Columns and masks *)

Lemma has_column_In (df : DataFrame) (c : string) :
  Pandas.has_column df c = true <-> is_column df c.
Proof.
  unfold Pandas.has_column, is_column. rewrite existsb_exists. split.
  - intros (x & Hx & He). apply String.eqb_eq in He. now subst.
  - intros H. exists c. split; [assumption | apply String.eqb_refl].
Qed.

Lemma has_column_not_In (df : DataFrame) (c : string) :
  ~ is_column df c -> Pandas.has_column df c = false.
Proof.
  intros H. apply not_true_is_false. now rewrite has_column_In.
Qed.

Lemma boolean_mask_map {A : Type} (f : A -> bool) (l : list A) :
  Pandas.boolean_mask (map f l) l = filter f l.
Proof.
  unfold Pandas.boolean_mask.
  induction l as [| x l IH]; simpl; [reflexivity |].
  destruct (f x); simpl; now rewrite IH.
Qed.

Lemma ne_map {A : Type} (f h : A -> Z) (l : list A) :
  Pandas.ne (map f l) (map h l) = map (fun x => negb (f x =? h x)) l.
Proof.
  unfold Pandas.ne. induction l as [| x l IH]; simpl; [reflexivity |].
  now rewrite IH.
Qed.

(** ** The single-country lookup *)

Lemma poland_cases_by_date_run (d m y : Z) (g : globals) :
  poland_cases_by_date d m y g =
  (match get_date_str d m y with
   | inl e => inl e
   | inr date =>
       if Pandas.has_column (confirmed_cases g) date then
         match filter is_Poland (rows (confirmed_cases g)) with
         | [] => inl IndexError
         | r :: _ => inr (cases r date)
         end
       else inl KeyError
   end, g).
Proof.
  unfold poland_cases_by_date.
  destruct (get_date_str d m y) as [e | date] eqn:E.
  - now rewrite (bind_lift_inl _ e).
  - rewrite (bind_lift_inr _ date) by reflexivity.
    unfold bind, read_confirmed_cases, lift, Pandas.getitem.
    unfold Pandas.has_column at 1. simpl columns.
    fold (Pandas.has_column (confirmed_cases g) date).
    destruct (Pandas.has_column (confirmed_cases g) date); [| reflexivity].
    unfold Pandas.loc, Pandas.eq_value, Pandas.country_col. simpl rows.
    rewrite map_map.
    rewrite (boolean_mask_map (fun r => String.eqb (Country_Region r) "Poland")).
    fold is_Poland.
    destruct (filter is_Poland (rows (confirmed_cases g))); reflexivity.
Qed.

Lemma filter_first {A : Type} (f : A -> bool) (pre post : list A) (x : A) :
  (forall a, In a pre -> f a = false) -> f x = true ->
  filter f (pre ++ x :: post) = x :: filter f post.
Proof.
  intros Hpre Hx. induction pre as [| a pre IH]; simpl.
  - now rewrite Hx.
  - rewrite (Hpre a (or_introl eq_refl)). apply IH.
    intros b Hb. apply Hpre. now right.
Qed.

Lemma filter_none {A : Type} (f : A -> bool) (l : list A) :
  (forall a, In a l -> f a = false) -> filter f l = [].
Proof.
  intros H. induction l as [| a l IH]; simpl; [reflexivity |].
  rewrite (H a (or_introl eq_refl)). apply IH.
  intros b Hb. apply H. now right.
Qed.

(** C3: when the date's key is a column, the lookup returns the cell of the
    first row labelled Poland in table order, whatever rows follow it, other
    rows of Poland included: it does not add them up. *)
Theorem poland_cases_by_date_first_row
  (day month year : Z) (g : globals) (date : string)
  (before after : list Row) (r : Row) :
  get_date_str day month year = inr date ->
  is_column (confirmed_cases g) date ->
  rows (confirmed_cases g) = before ++ r :: after ->
  (forall x, In x before -> Country_Region x <> "Poland") ->
  Country_Region r = "Poland" ->
  poland_cases_by_date day month year g = (inr (cases r date), g).
Proof.
  intros Hdate Hcol Hrows Hbefore Hr.
  rewrite poland_cases_by_date_run, Hdate.
  rewrite (proj2 (has_column_In _ _) Hcol), Hrows.
  rewrite filter_first; [reflexivity | |].
  - intros a Ha. unfold is_Poland. apply String.eqb_neq. now apply Hbefore.
  - unfold is_Poland. now apply String.eqb_eq.
Qed.

(** In [sample] Poland has the rows 7 and 1 on 27 February 2020: the lookup
    returns 7 and not their sum 8. *)
Lemma poland_cases_by_date_first_row_witness :
  poland_cases_by_date 27 2 2020 (mkGlobals sample)
  = (inr 7, mkGlobals sample)
  /\ country_total sample "2/27/20" "Poland" = 8.
Proof.
  split; [| reflexivity].
  refine (poland_cases_by_date_first_row 27 2 2020 (mkGlobals sample)
            "2/27/20" (firstn 2 (rows sample)) (skipn 3 (rows sample))
            (mkRow "Poland" (cells [("2/26/20", 5); ("2/27/20", 7)]))
            eq_refl _ eq_refl _ eq_refl).
  - right. left. reflexivity.
  - intros x [<- | [<- | []]]; discriminate.
Defined.

(** C6, as amended: the three failures of the lookup are checked in a fixed
    order.  Out-of-bounds date components raise the invalid-date error;
    with the components in bounds, a key that is not a column raises the
    date-not-found error; with the key a column, a table without a row
    labelled Poland raises the country-not-found error. *)
Theorem poland_cases_by_date_errors (day month year : Z) (g : globals) :
  (~ in_bounds day month year ->
   poland_cases_by_date day month year g = (inl InvalidDateError, g))
  /\ (forall date,
        get_date_str day month year = inr date ->
        ~ is_column (confirmed_cases g) date ->
        poland_cases_by_date day month year g = (inl DateNotFoundError, g))
  /\ (forall date,
        get_date_str day month year = inr date ->
        is_column (confirmed_cases g) date ->
        (forall r, In r (rows (confirmed_cases g)) ->
                   Country_Region r <> "Poland") ->
        poland_cases_by_date day month year g
        = (inl CountryNotFoundError, g)).
Proof.
  split; [| split].
  - intros H. rewrite poland_cases_by_date_run.
    now rewrite (get_date_str_out_of_bounds _ _ _ H).
  - intros date Hdate Hcol. rewrite poland_cases_by_date_run, Hdate.
    now rewrite (has_column_not_In _ _ Hcol).
  - intros date Hdate Hcol Hrows.
    rewrite poland_cases_by_date_run, Hdate.
    rewrite (proj2 (has_column_In _ _) Hcol).
    rewrite filter_none; [reflexivity |].
    intros a Ha. unfold is_Poland. apply String.eqb_neq. now apply Hrows.
Qed.

Lemma poland_cases_by_date_errors_witness :
  poland_cases_by_date 32 2 2020 (mkGlobals sample)
  = (inl ValueError, mkGlobals sample)
  /\ poland_cases_by_date 28 2 2020 (mkGlobals sample)
     = (inl KeyError, mkGlobals sample)
  /\ poland_cases_by_date 1 1 2020 (mkGlobals tied_BA)
     = (inl IndexError, mkGlobals tied_BA).
Proof.
  split; [| split].
  - apply (proj1 (poland_cases_by_date_errors 32 2 2020 (mkGlobals sample))).
    unfold in_bounds. lia.
  - apply (proj1 (proj2
             (poland_cases_by_date_errors 28 2 2020 (mkGlobals sample)))
             "2/28/20" eq_refl).
    intros [H | [H | []]]; discriminate H.
  - apply (proj2 (proj2
             (poland_cases_by_date_errors 1 1 2020 (mkGlobals tied_BA)))
             "1/1/20" eq_refl).
    + left. reflexivity.
    + intros r [<- | [<- | []]]; discriminate.
Defined.

(** C6, as stated, fails on a table that has neither a row labelled Poland
    nor the column of the date: in [tied_BA] no row matches, its only column
    is 1 January 2020, and the lookup on 7 March 2020 raises the
    date-not-found error, not the country-not-found error. *)
Lemma poland_cases_by_date_column_checked_first :
  (forall r, In r (rows tied_BA) -> Country_Region r <> "Poland")
  /\ get_date_str 7 3 2020 = inr "3/7/20"
  /\ ~ is_column tied_BA "3/7/20"
  /\ fst (poland_cases_by_date 7 3 2020 (mkGlobals tied_BA))
     = inl DateNotFoundError
  /\ fst (poland_cases_by_date 7 3 2020 (mkGlobals tied_BA))
     <> inl CountryNotFoundError.
Proof.
  split; [intros r [<- | [<- | []]]; discriminate |].
  split; [reflexivity |].
  split; [intros [H | []]; discriminate H |].
  split; [reflexivity | discriminate].
Qed.

(** ** The key of the previous day *)

Lemma prev_date_str_after_2010 (d m y : Z) :
  in_bounds d m y -> calendar_date d m y -> after_1_Jan_2010 d m y ->
  prev_date_str (DateKey d m y) = inr (DateKey_of (previous_day d m y)).
Proof.
  intros Hb Hc Ha.
  pose proof (all_in_bounds_spec check_prev check_prev_all d m y Hb) as H.
  unfold check_prev in H.
  rewrite (calendar_dateb_true _ _ _ Hc) in H.
  rewrite (after_1_Jan_2010b_true _ _ _ Ha) in H.
  now apply is_string_true.
Qed.

Lemma prev_date_str_calendar (d m y : Z) :
  in_bounds d m y -> calendar_date d m y ->
  exists prev,
    prev_date_str (DateKey d m y) = inr prev /\ prev <> DateKey d m y.
Proof.
  intros Hb Hc.
  pose proof (all_in_bounds_spec check_parse check_parse_all d m y Hb) as H.
  unfold check_parse in H.
  rewrite (calendar_dateb_true _ _ _ Hc) in H.
  destruct (prev_date_str (DateKey d m y)) as [e | p]; [discriminate |].
  exists p. split; [reflexivity |].
  apply String.eqb_neq. now apply negb_true_iff.
Qed.

Lemma prev_date_str_not_calendar (d m y : Z) :
  in_bounds d m y -> ~ calendar_date d m y ->
  prev_date_str (DateKey d m y) = inl ValueError.
Proof.
  intros Hb Hc.
  pose proof (all_in_bounds_spec check_parse check_parse_all d m y Hb) as H.
  unfold check_parse in H.
  rewrite (calendar_dateb_false _ _ _ Hc) in H.
  now apply is_error_true.
Qed.

(** ** The count of changed rows *)

Lemma filter_map_length {A B : Type} (F : A -> B) (p : B -> bool)
  (l : list A) :
  List.length (filter p (map F l))
  = List.length (filter (fun x => p (F x)) l).
Proof.
  induction l as [| x l IH]; simpl; [reflexivity |].
  destruct (p (F x)); simpl; now rewrite IH.
Qed.

Lemma no_new_cases_count_run (d m y : Z) (g : globals) :
  no_new_cases_count d m y g =
  (match get_date_str d m y with
   | inl e => inl e
   | inr date =>
       match prev_date_str date with
       | inl e => inl e
       | inr prev =>
           if Pandas.has_column (confirmed_cases g) date
              && Pandas.has_column (confirmed_cases g) prev
           then inr (changed_rows (confirmed_cases g) date prev)
           else inl KeyError
       end
   end, g).
Proof.
  unfold no_new_cases_count.
  destruct (get_date_str d m y) as [e | date] eqn:E.
  - now rewrite (bind_lift_inl _ e).
  - rewrite (bind_lift_inr _ date) by reflexivity.
    destruct (prev_date_str date) as [e | prev] eqn:P.
    + now rewrite (bind_lift_inl _ e).
    + rewrite (bind_lift_inr _ prev) by reflexivity.
      unfold bind, read_confirmed_cases, lift, Pandas.select2.
      destruct (Pandas.has_column (confirmed_cases g) date
                && Pandas.has_column (confirmed_cases g) prev);
        [| reflexivity].
      unfold ret. f_equal. f_equal. unfold changed_rows. f_equal.
      rewrite (ne_map (fun r : string * (Z * Z) => fst (snd r))
                 (fun r => snd (snd r))).
      rewrite boolean_mask_map, filter_map_length. reflexivity.
Qed.

(** C1 on its failing input.  On 2 January 2005 both the key of the date and
    the key of the previous calendar day are columns of [january_2005], and
    one of its rows changed between them; the query computes ["1/1/5"] as
    the key of the previous day, where the formatter's key of that day is
    ["1/1/05"], and raises the date-not-found error. *)
Theorem no_new_cases_count_january_2005 :
  in_bounds 2 1 2005 /\ calendar_date 2 1 2005
  /\ previous_day 2 1 2005 = (1, 1, 2005)
  /\ get_date_str 2 1 2005 = inr "1/2/05"
  /\ get_date_str 1 1 2005 = inr "1/1/05"
  /\ is_column january_2005 "1/2/05"
  /\ is_column january_2005 "1/1/05"
  /\ changed_rows january_2005 "1/2/05" "1/1/05" = 1
  /\ prev_date_str "1/2/05" = inr "1/1/5"
  /\ no_new_cases_count 2 1 2005 (mkGlobals january_2005)
     = (inl DateNotFoundError, mkGlobals january_2005).
Proof.
  repeat split; try reflexivity; try (vm_compute; congruence);
    try (unfold is_column; simpl; tauto); lia.
Qed.

(** X5: where the year of neither key starts with a zero, that is on a
    calendar date after 1 January 2010, the two keys agree in format: when
    the key of the date and the key of the previous calendar day are both
    columns, the query returns the number of rows, each counted on its own,
    whose values at the two keys differ. *)
Theorem no_new_cases_count_after_2010
  (day month year : Z) (g : globals) :
  in_bounds day month year ->
  calendar_date day month year ->
  after_1_Jan_2010 day month year ->
  is_column (confirmed_cases g) (DateKey day month year) ->
  is_column (confirmed_cases g) (DateKey_of (previous_day day month year)) ->
  get_date_str day month year = inr (DateKey day month year)
  /\ prev_date_str (DateKey day month year)
     = inr (DateKey_of (previous_day day month year))
  /\ no_new_cases_count day month year g
     = (inr (changed_rows (confirmed_cases g) (DateKey day month year)
               (DateKey_of (previous_day day month year))), g).
Proof.
  intros Hb Hc Ha Hd Hp.
  pose proof (get_date_str_in_bounds _ _ _ Hb) as Hdate.
  pose proof (prev_date_str_after_2010 _ _ _ Hb Hc Ha) as Hprev.
  split; [assumption |]. split; [assumption |].
  rewrite no_new_cases_count_run, Hdate, Hprev.
  rewrite (proj2 (has_column_In _ _) Hd), (proj2 (has_column_In _ _) Hp).
  reflexivity.
Qed.

Lemma no_new_cases_count_after_2010_witness :
  no_new_cases_count 27 2 2020 (mkGlobals sample)
  = (inr 6, mkGlobals sample).
Proof.
  refine (proj2 (proj2
            (no_new_cases_count_after_2010 27 2 2020 (mkGlobals sample)
               _ _ _ _ _))).
  - unfold in_bounds. lia.
  - unfold calendar_date. simpl. lia.
  - left. lia.
  - right. left. reflexivity.
  - left. reflexivity.
Defined.

(** ** Sorted lists *)

Lemma firstn_subset {A : Type} (n : nat) (l : list A) (x : A) :
  In x (firstn n l) -> In x l.
Proof.
  revert l. induction n as [| n IH]; intros [| a l]; simpl; try tauto.
  intros [-> | H]; [now left | right; now apply IH].
Qed.

Section Sorted_lists.

Context {A : Type} (R : A -> A -> Prop).

Lemma StronglySorted_snoc (l : list A) (x : A) :
  StronglySorted R l -> Forall (fun a => R a x) l ->
  StronglySorted R (l ++ [x]).
Proof.
  induction l as [| a l IH]; simpl; intros Hs Hx.
  - constructor; constructor.
  - inversion Hs as [| ? ? Hs' Ha]; subst.
    inversion Hx as [| ? ? Hax Hx']; subst.
    constructor; [now apply IH |].
    apply Forall_app. split; [assumption |]. now constructor.
Qed.

Lemma StronglySorted_firstn (n : nat) (l : list A) :
  StronglySorted R l -> StronglySorted R (firstn n l).
Proof.
  revert l. induction n as [| n IH]; intros [| a l] Hs; simpl;
    try constructor.
  - inversion Hs; subst. now apply IH.
  - inversion Hs as [| ? ? _ Ha]; subst.
    rewrite Forall_forall in *. intros x Hx. apply Ha.
    eapply firstn_subset. eassumption.
Qed.

Hypothesis R_irrefl : forall a, ~ R a a.
Hypothesis R_trans : forall a b c, R a b -> R b c -> R a c.

Lemma StronglySorted_NoDup (l : list A) : StronglySorted R l -> NoDup l.
Proof.
  induction 1 as [| a l Hs IH Ha]; constructor; [| assumption].
  intros Hin. rewrite Forall_forall in Ha.
  exact (R_irrefl a (Ha a Hin)).
Qed.

(** Two lists sorted by a strict order that hold the same elements are
    the same list. *)
Lemma StronglySorted_unique (l l' : list A) :
  StronglySorted R l -> StronglySorted R l' ->
  (forall x, In x l <-> In x l') -> l = l'.
Proof.
  intros Hs. revert l'.
  induction Hs as [| a l Hs IH Ha]; intros l' Hs' Hin.
  - destruct l' as [| b l']; [reflexivity |].
    destruct (proj2 (Hin b) (or_introl eq_refl)).
  - destruct Hs' as [| b l' Hs' Hb].
    + destruct (proj1 (Hin a) (or_introl eq_refl)).
    + rewrite Forall_forall in Ha, Hb.
      assert (a = b) as <-.
      { destruct (proj1 (Hin a) (or_introl eq_refl)) as [E | Hab];
          [now symmetry |].
        destruct (proj2 (Hin b) (or_introl eq_refl)) as [E | Hba];
          [assumption |].
        destruct (R_irrefl a (R_trans _ _ _ (Ha b Hba) (Hb a Hab))). }
      f_equal. apply IH; [assumption |].
      intros x. split; intros Hx.
      * destruct (proj1 (Hin x) (or_intror Hx)) as [E | H]; [| assumption].
        subst x. destruct (R_irrefl a (Ha a Hx)).
      * destruct (proj2 (Hin x) (or_intror Hx)) as [E | H]; [| assumption].
        subst x. destruct (R_irrefl a (Hb a Hx)).
Qed.

End Sorted_lists.

Lemma StronglySorted_rev_ge (l : list Z) :
  StronglySorted Z.le l -> StronglySorted Z.ge (rev l).
Proof.
  induction 1 as [| a l Hs IH Ha]; simpl; [constructor |].
  apply StronglySorted_snoc; [assumption |].
  rewrite Forall_forall in *. intros x Hx.
  apply in_rev in Hx. specialize (Ha x Hx). lia.
Qed.

(** ** The order of the labels *)

Lemma label_lt_irrefl (a : string) : ~ label_lt a a.
Proof. intros H. exact (String_as_OT.lt_not_eq _ _ H eq_refl). Qed.

Lemma label_lt_trans (a b c : string) :
  label_lt a b -> label_lt b c -> label_lt a c.
Proof. apply String_as_OT.lt_trans. Qed.

Lemma compare_Lt (a b : string) : String.compare a b = Lt -> label_lt a b.
Proof. apply String_as_OT.cmp_lt. Qed.

Lemma compare_Gt (a b : string) : String.compare a b = Gt -> label_lt b a.
Proof.
  intros H. apply String_as_OT.cmp_lt. unfold String_as_OT.cmp.
  rewrite String.compare_antisym, H. reflexivity.
Qed.

Lemma compare_Eq (a b : string) : String.compare a b = Eq -> a = b.
Proof. apply String.compare_eq_iff. Qed.

Lemma key_lt_irrefl (p : string * Z) : ~ key_lt p p.
Proof. apply label_lt_irrefl. Qed.

Lemma key_lt_trans (p q r : string * Z) :
  key_lt p q -> key_lt q r -> key_lt p r.
Proof. apply label_lt_trans. Qed.

(** ** 64-bit sums *)

Lemma int64_add_l (x y : Z) :
  Pandas.int64 (Pandas.int64 x + y) = Pandas.int64 (x + y).
Proof.
  unfold Pandas.int64. f_equal.
  replace ((x + 2 ^ 63) mod 2 ^ 64 - 2 ^ 63 + y + 2 ^ 63)
    with ((x + 2 ^ 63) mod 2 ^ 64 + y) by lia.
  rewrite Z.add_mod_idemp_l by lia. f_equal. lia.
Qed.

Lemma int64_idem (x : Z) : Pandas.int64 (Pandas.int64 x) = Pandas.int64 x.
Proof.
  rewrite <- (Z.add_0_r (Pandas.int64 x)) at 1.
  rewrite int64_add_l. now rewrite Z.add_0_r.
Qed.

Lemma int64_add_congr (a x y : Z) :
  Pandas.int64 x = Pandas.int64 y ->
  Pandas.int64 (a + x) = Pandas.int64 (a + y).
Proof.
  intros H. rewrite (Z.add_comm a x), (Z.add_comm a y).
  rewrite <- (int64_add_l x a), <- (int64_add_l y a). now rewrite H.
Qed.

Lemma int64_fits (z : Z) : fits_int64 z -> Pandas.int64 z = z.
Proof.
  unfold fits_int64, Pandas.int64. intros H.
  rewrite Z.mod_small; lia.
Qed.

(** ** Grouping *)

Lemma group_insert_keys (k : string) (v : Z) (g : list (string * Z))
  (c : string) :
  In c (map fst (Pandas.group_insert k v g)) <-> c = k \/ In c (map fst g).
Proof.
  induction g as [| [k' v'] g IH]; simpl.
  - intuition.
  - destruct (String.compare k k') eqn:E; simpl.
    + apply compare_Eq in E. subst k'. intuition.
    + intuition.
    + rewrite IH. intuition.
Qed.

Lemma group_insert_sorted (k : string) (v : Z) (g : list (string * Z)) :
  StronglySorted key_lt g ->
  StronglySorted key_lt (Pandas.group_insert k v g).
Proof.
  induction 1 as [| [k' v'] g Hs IH Hk]; simpl.
  - constructor; constructor.
  - rewrite Forall_forall in Hk.
    destruct (String.compare k k') eqn:E.
    + constructor; [assumption |]. rewrite Forall_forall.
      intros x Hx. exact (Hk x Hx).
    + apply compare_Lt in E.
      constructor; [now constructor; [| rewrite Forall_forall] |].
      constructor; [exact E |]. rewrite Forall_forall.
      intros x Hx. exact (label_lt_trans _ _ _ E (Hk x Hx)).
    + apply compare_Gt in E.
      constructor; [assumption |]. rewrite Forall_forall.
      intros [c n] Hx.
      assert (In c (map fst (Pandas.group_insert k v g))) as Hc
        by (apply in_map_iff; now exists (c, n)).
      apply group_insert_keys in Hc. destruct Hc as [-> | Hc]; [exact E |].
      apply in_map_iff in Hc. destruct Hc as ([c' n'] & <- & Hc).
      exact (Hk _ Hc).
Qed.

Lemma group_insert_int64 (k : string) (v : Z) (g : list (string * Z)) :
  sums_int64 g -> sums_int64 (Pandas.group_insert k v g).
Proof.
  unfold sums_int64.
  induction 1 as [| [k' v'] g Hv Hg IH]; simpl.
  - constructor; [apply int64_idem | constructor].
  - destruct (String.compare k k').
    + constructor; [apply int64_idem | assumption].
    + constructor; [apply int64_idem |]. now constructor.
    + now constructor.
Qed.

Lemma frame_total_cons (k : string) (v : Z) (g : list (string * Z))
  (c : string) :
  frame_total ((k, v) :: g) c
  = (if String.eqb k c then v else 0) + frame_total g c.
Proof.
  unfold frame_total. simpl. destruct (String.eqb k c); reflexivity.
Qed.

Lemma group_insert_total (k : string) (v : Z) (g : list (string * Z))
  (c : string) :
  Pandas.int64 (frame_total (Pandas.group_insert k v g) c)
  = Pandas.int64 (frame_total g c + (if String.eqb k c then v else 0)).
Proof.
  induction g as [| [k' v'] g IH]; simpl.
  - rewrite frame_total_cons. change (frame_total [] c) with 0.
    destruct (String.eqb k c); [| reflexivity].
    rewrite int64_add_l. f_equal. lia.
  - destruct (String.compare k k') eqn:E.
    + apply compare_Eq in E. subst k'. rewrite !frame_total_cons.
      destruct (String.eqb k c).
      * rewrite int64_add_l. f_equal. lia.
      * f_equal. lia.
    + rewrite !frame_total_cons.
      destruct (String.eqb k c).
      * rewrite int64_add_l. f_equal. lia.
      * f_equal. lia.
    + rewrite !frame_total_cons.
      rewrite (int64_add_congr _ _ _ IH). f_equal. lia.
Qed.

Lemma group_sum_from (frame g : list (string * Z)) :
  StronglySorted key_lt g -> sums_int64 g ->
  let g' := fold_left (fun g r => Pandas.group_insert (fst r) (snd r) g)
              frame g in
  StronglySorted key_lt g'
  /\ sums_int64 g'
  /\ (forall c, In c (map fst g') <-> In c (map fst frame) \/ In c (map fst g))
  /\ (forall c, Pandas.int64 (frame_total g' c)
                = Pandas.int64 (frame_total g c + frame_total frame c)).
Proof.
  revert g. induction frame as [| [k v] frame IH]; simpl; intros g Hs Hv.
  - split; [assumption |]. split; [assumption |]. split; [intuition |].
    intros c. unfold frame_total at 3. simpl. f_equal. lia.
  - destruct (IH _ (group_insert_sorted k v g Hs)
                (group_insert_int64 k v g Hv)) as (H1 & H2 & H3 & H4).
    split; [assumption |]. split; [assumption |]. split.
    + intros c. rewrite H3, group_insert_keys. intuition.
    + intros c. rewrite H4, frame_total_cons.
      rewrite (Z.add_comm (frame_total (Pandas.group_insert k v g) c)).
      rewrite (int64_add_congr _ _ _ (group_insert_total k v g c)).
      f_equal. lia.
Qed.

Lemma group_sum_sorted (frame : list (string * Z)) :
  StronglySorted key_lt (Pandas.group_sum frame).
Proof. apply (group_sum_from frame []); constructor. Qed.

Lemma group_sum_int64 (frame : list (string * Z)) :
  sums_int64 (Pandas.group_sum frame).
Proof. apply (group_sum_from frame []); constructor. Qed.

Lemma group_sum_keys (frame : list (string * Z)) (c : string) :
  In c (map fst (Pandas.group_sum frame)) <-> In c (map fst frame).
Proof.
  destruct (group_sum_from frame [] ltac:(constructor) ltac:(constructor))
    as (_ & _ & H & _).
  unfold Pandas.group_sum. rewrite H. simpl. intuition.
Qed.

Lemma group_sum_total (frame : list (string * Z)) (c : string) :
  Pandas.int64 (frame_total (Pandas.group_sum frame) c)
  = Pandas.int64 (frame_total frame c).
Proof.
  destruct (group_sum_from frame [] ltac:(constructor) ltac:(constructor))
    as (_ & _ & _ & H).
  unfold Pandas.group_sum. rewrite H. reflexivity.
Qed.

Lemma StronglySorted_keys (g : list (string * Z)) :
  StronglySorted key_lt g -> StronglySorted label_lt (map fst g).
Proof.
  induction 1 as [| p g Hs IH Hp]; simpl; constructor; [assumption |].
  rewrite Forall_forall in *. intros c Hc.
  apply in_map_iff in Hc. destruct Hc as (q & <- & Hq). exact (Hp q Hq).
Qed.

Lemma group_sum_NoDup (frame : list (string * Z)) :
  NoDup (map fst (Pandas.group_sum frame)).
Proof.
  apply (StronglySorted_NoDup label_lt label_lt_irrefl).
  apply StronglySorted_keys, group_sum_sorted.
Qed.

Lemma frame_total_absent (g : list (string * Z)) (c : string) :
  ~ In c (map fst g) -> frame_total g c = 0.
Proof.
  unfold frame_total. induction g as [| [k v] g IH]; simpl; intros H.
  - reflexivity.
  - destruct (String.eqb_spec k c) as [-> | _]; [tauto |].
    apply IH. tauto.
Qed.

Lemma frame_total_NoDup (g : list (string * Z)) (c : string) (n : Z) :
  NoDup (map fst g) -> In (c, n) g -> frame_total g c = n.
Proof.
  induction g as [| [k v] g IH]; simpl; intros Hnd Hin; [tauto |].
  inversion Hnd as [| ? ? Hk Hnd']; subst.
  destruct Hin as [[= -> ->] | Hin].
  - unfold frame_total. simpl. rewrite String.eqb_refl. simpl.
    fold (frame_total g c). rewrite (frame_total_absent g c Hk). lia.
  - unfold frame_total. simpl.
    destruct (String.eqb_spec k c) as [-> | _].
    + destruct Hk. apply in_map_iff. now exists (c, n).
    + now apply IH.
Qed.

(** A grouped frame holds, for each label of the frame, the 64-bit sum of
    the label's rows. *)
Lemma group_sum_In (frame : list (string * Z)) (c : string) (n : Z) :
  In (c, n) (Pandas.group_sum frame)
  <-> In c (map fst frame) /\ n = Pandas.int64 (frame_total frame c).
Proof.
  assert (forall m, In (c, m) (Pandas.group_sum frame) ->
                    m = Pandas.int64 (frame_total frame c)) as Hval.
  { intros m H. rewrite <- group_sum_total.
    rewrite (frame_total_NoDup _ c m (group_sum_NoDup frame) H).
    pose proof (group_sum_int64 frame) as Hv. unfold sums_int64 in Hv.
    rewrite Forall_forall in Hv. symmetry. exact (Hv _ H). }
  split.
  - intros H. split; [| now apply Hval].
    apply group_sum_keys. apply in_map_iff. now exists (c, n).
  - intros (Hc & ->). apply group_sum_keys in Hc.
    apply in_map_iff in Hc. destruct Hc as ([c' n'] & E & Hin).
    simpl in E. subst c'. now rewrite <- (Hval _ Hin).
Qed.

Lemma frame_of_labels (df : DataFrame) (date : string) :
  map fst (frame_of df date) = country_labels df.
Proof. unfold frame_of, country_labels. now rewrite map_map. Qed.

Lemma frame_of_total (df : DataFrame) (date c : string) :
  frame_total (frame_of df date) c = country_total df date c.
Proof.
  unfold frame_total, frame_of, country_total.
  induction (rows df) as [| r l IH]; simpl; [reflexivity |].
  destruct (String.eqb (Country_Region r) c); simpl; now rewrite IH.
Qed.

Lemma frame_of_nil (df : DataFrame) (date : string) :
  frame_of df date = [] <-> rows df = [].
Proof.
  unfold frame_of. destruct (rows df); simpl; split; congruence.
Qed.

(** ** Sorting *)

Lemma take_all {A : Type} (d : A) (a : list A) :
  Pandas.take d a (seq 0 (List.length a)) = a.
Proof.
  unfold Pandas.take. induction a as [| x a IH]; simpl; [reflexivity |].
  f_equal. rewrite <- seq_shift, map_map. exact IH.
Qed.

Lemma take_Permutation {A : Type} (d : A) (a : list A) (ix : list nat) :
  Permutation ix (seq 0 (List.length a)) -> Permutation (Pandas.take d a ix) a.
Proof.
  intros H. rewrite <- (take_all d a) at 2.
  unfold Pandas.take. now apply Permutation_map.
Qed.

Lemma nth_rev_seq (n i : nat) :
  (i < n)%nat -> nth i (rev (seq 0 n)) O = (n - S i)%nat.
Proof.
  intros H. rewrite rev_nth by (now rewrite length_seq).
  rewrite length_seq. rewrite seq_nth by lia. reflexivity.
Qed.

Section Descending.

Variable kind : argsort_kind.
Hypothesis kind_sorts : is_argsort kind.

Lemma argsort_lt (v : list Z) (i : nat) :
  In i (kind v) -> (i < List.length v)%nat.
Proof.
  intros H. destruct (kind_sorts v) as [Hp _].
  apply (Permutation_in _ Hp) in H. apply in_seq in H. lia.
Qed.

Lemma nargsort_descending_Permutation (items : list Z) :
  Permutation (Pandas.nargsort kind items false)
    (seq 0 (List.length items)).
Proof.
  unfold Pandas.nargsort.
  rewrite <- Permutation_rev.
  transitivity (rev (seq 0 (List.length items)));
    [| symmetry; apply Permutation_rev].
  apply take_Permutation.
  rewrite length_rev, length_seq.
  destruct (kind_sorts (rev items)) as [Hp _].
  now rewrite length_rev in Hp.
Qed.

Lemma nargsort_descending_sorted (items : list Z) :
  StronglySorted Z.ge
    (map (fun i => nth i items 0) (Pandas.nargsort kind items false)).
Proof.
  unfold Pandas.nargsort. rewrite map_rev.
  apply StronglySorted_rev_ge.
  unfold Pandas.take. rewrite map_map.
  destruct (kind_sorts (rev items)) as [_ Hs].
  erewrite map_ext_in; [exact Hs |].
  intros i Hi. simpl. apply argsort_lt in Hi.
  rewrite length_rev in Hi.
  rewrite nth_rev_seq by assumption.
  rewrite rev_nth by assumption. reflexivity.
Qed.

Lemma sort_rows_descending (frame : list (string * Z)) :
  Permutation (Pandas.sort_rows kind false frame) frame
  /\ StronglySorted Z.ge (map snd (Pandas.sort_rows kind false frame)).
Proof.
  unfold Pandas.sort_rows. split.
  - apply take_Permutation.
    rewrite <- (length_map snd frame).
    apply nargsort_descending_Permutation.
  - unfold Pandas.take. rewrite map_map.
    erewrite map_ext;
      [exact (nargsort_descending_sorted (map snd frame)) |].
    intros i. simpl.
    exact (eq_sym (map_nth snd frame (EmptyString, 0) i)).
Qed.

End Descending.

(** ** Straight insertion is a sorting algorithm *)

Lemma insert_index_Permutation (v : list Z) (i : nat) (s : list nat) :
  Permutation (insert_index v i s) (i :: s).
Proof.
  induction s as [| j s IH]; simpl; [reflexivity |].
  destruct (nth i v 0 <? nth j v 0); [reflexivity |].
  rewrite IH. apply perm_swap.
Qed.

Lemma insert_index_sorted (v : list Z) (i : nat) (s : list nat) :
  StronglySorted Z.le (map (fun i => nth i v 0) s) ->
  StronglySorted Z.le (map (fun i => nth i v 0) (insert_index v i s)).
Proof.
  induction s as [| j s IH]; simpl; intros Hs.
  - constructor; constructor.
  - inversion Hs as [| ? ? Hs' Hj]; subst.
    destruct (Z.ltb_spec (nth i v 0) (nth j v 0)) as [Hlt | Hge]; simpl.
    + constructor; [assumption |].
      constructor; [lia |].
      rewrite Forall_forall in *. intros x Hx. specialize (Hj x Hx). lia.
    + constructor; [now apply IH |].
      rewrite Forall_forall in *. intros x Hx.
      apply in_map_iff in Hx. destruct Hx as (k & <- & Hk).
      apply (Permutation_in _ (insert_index_Permutation v i s)) in Hk.
      destruct Hk as [<- | Hk]; [assumption |].
      apply Hj. apply in_map_iff. now exists k.
Qed.

Lemma insertion_from (v : list Z) (l s : list nat) :
  StronglySorted Z.le (map (fun i => nth i v 0) s) ->
  let s' := fold_left (fun sorted i => insert_index v i sorted) l s in
  Permutation s' (l ++ s)
  /\ StronglySorted Z.le (map (fun i => nth i v 0) s').
Proof.
  revert s. induction l as [| i l IH]; simpl; intros s Hs.
  - split; [reflexivity | assumption].
  - destruct (IH _ (insert_index_sorted v i s Hs)) as [Hp Hs'].
    split; [| assumption].
    rewrite Hp, insert_index_Permutation.
    symmetry. apply Permutation_middle.
Qed.

Lemma insertion_argsort_sorts : is_argsort insertion_argsort.
Proof.
  intros v. unfold insertion_argsort.
  destruct (insertion_from v (seq 0 (List.length v)) [] ltac:(constructor))
    as [Hp Hs].
  split; [| assumption]. now rewrite app_nil_r in Hp.
Qed.

(** ** The ranking *)

Lemma top5_countries_by_date_run (kind : argsort_kind) (d m y : Z)
  (g : globals) :
  top5_countries_by_date kind d m y g =
  (match get_date_str d m y with
   | inl e => inl e
   | inr date =>
       if Pandas.has_column (confirmed_cases g) date
       then match rows (confirmed_cases g) with
            | [] => inl KeyError
            | _ :: _ =>
                inr (firstn 5
                       (map fst
                          (Pandas.sort_rows kind false
                             (Pandas.group_sum
                                (frame_of (confirmed_cases g) date)))))
            end
       else inl KeyError
   end, g).
Proof.
  unfold top5_countries_by_date.
  destruct (get_date_str d m y) as [e | date] eqn:E.
  - now rewrite (bind_lift_inl _ e).
  - rewrite (bind_lift_inr _ date) by reflexivity.
    unfold bind, read_confirmed_cases, lift, Pandas.select1.
    destruct (Pandas.has_column (confirmed_cases g) date); [| reflexivity].
    unfold frame_of.
    destruct (rows (confirmed_cases g)) as [| r l]; [reflexivity |].
    unfold ret, Pandas.index, Pandas.head. cbn [map Pandas.groupby_sum
      Pandas.sort_values]. now rewrite firstn_map.
Qed.

Lemma top5_countries_by_date_returns (kind : argsort_kind) (d m y : Z)
  (g : globals) (date : string) :
  get_date_str d m y = inr date ->
  is_column (confirmed_cases g) date ->
  rows (confirmed_cases g) <> [] ->
  top5_countries_by_date kind d m y g
  = (inr (firstn 5
            (map fst
               (Pandas.sort_rows kind false
                  (Pandas.group_sum (frame_of (confirmed_cases g) date))))),
     g).
Proof.
  intros Hdate Hcol Hrows.
  rewrite top5_countries_by_date_run, Hdate.
  rewrite (proj2 (has_column_In _ _) Hcol).
  destruct (rows (confirmed_cases g)); [congruence | reflexivity].
Qed.

Lemma top5_countries_by_date_no_rows (kind : argsort_kind) (d m y : Z)
  (g : globals) (date : string) :
  get_date_str d m y = inr date ->
  rows (confirmed_cases g) = [] ->
  top5_countries_by_date kind d m y g = (inl KeyError, g).
Proof.
  intros Hdate Hrows.
  rewrite top5_countries_by_date_run, Hdate, Hrows.
  now destruct (Pandas.has_column (confirmed_cases g) date).
Qed.

Lemma sort_rows_ranking (kind : argsort_kind) (df : DataFrame)
  (date : string) :
  is_argsort kind ->
  int64_ranking_of df date
    (Pandas.sort_rows kind false (Pandas.group_sum (frame_of df date))).
Proof.
  intros Hk.
  destruct (sort_rows_descending kind Hk
              (Pandas.group_sum (frame_of df date))) as [Hp Hs].
  repeat split.
  - apply (Permutation_NoDup (Permutation_sym (Permutation_map fst Hp))).
    apply group_sum_NoDup.
  - intros H. apply (Permutation_in _ (Permutation_map fst Hp)) in H.
    apply (proj1 (group_sum_keys _ _)) in H.
    now rewrite frame_of_labels in H.
  - intros H.
    apply (Permutation_in _ (Permutation_sym (Permutation_map fst Hp))).
    apply (proj2 (group_sum_keys _ _)). now rewrite frame_of_labels.
  - intros c n H. apply (Permutation_in _ Hp) in H.
    apply (proj1 (group_sum_In _ _ _)) in H. destruct H as [_ ->].
    unfold int64_total. now rewrite frame_of_total.
  - assumption.
Qed.

(** Where every total fits in 64 bits the two notions of ranking agree. *)
Lemma int64_ranking_of_fit (df : DataFrame) (date : string)
  (ranking : list (string * Z)) :
  totals_fit df date ->
  int64_ranking_of df date ranking <-> ranking_of df date ranking.
Proof.
  intros Hfit.
  assert (forall c, In c (country_labels df) ->
                    int64_total df date c = country_total df date c) as E
    by (intros c Hc; apply int64_fits, Hfit, Hc).
  split; intros (Hnd & Hin & Ht & Hs); repeat split;
    try assumption; try apply Hin.
  - intros c n H. rewrite (Ht _ _ H). apply E, Hin.
    now apply (in_map fst) in H.
  - intros c n H. rewrite (Ht _ _ H). symmetry. apply E, Hin.
    now apply (in_map fst) in H.
Qed.

Lemma ranking_of_length (df : DataFrame) (date : string)
  (ranking : list (string * Z)) :
  int64_ranking_of df date ranking ->
  List.length ranking = distinct_countries df.
Proof.
  intros (Hnd & Hin & _). unfold distinct_countries.
  rewrite <- (length_map fst ranking).
  apply Permutation_length, NoDup_Permutation;
    [assumption | apply NoDup_nodup |].
  intros c. rewrite nodup_In. apply Hin.
Qed.


Lemma ranking_of_totals (df : DataFrame) (date : string)
  (ranking : list (string * Z)) :
  ranking_of df date ranking ->
  map (country_total df date) (map fst ranking) = map snd ranking.
Proof.
  intros (_ & _ & Ht & _). rewrite map_map.
  apply map_ext_in. intros [c n] H. simpl. symmetry. now apply Ht.
Qed.

Lemma NoDup_firstn_of {A : Type} (n : nat) (l : list A) :
  NoDup l -> NoDup (firstn n l).
Proof.
  revert l. induction n as [| n IH]; intros [| a l] H; simpl;
    try constructor; inversion H as [| ? ? Ha Hl]; subst.
  - intros Hin. apply Ha. eapply firstn_subset. eassumption.
  - now apply IH.
Qed.

Lemma frame_total_Permutation (f f' : list (string * Z)) (c : string) :
  Permutation f f' -> frame_total f c = frame_total f' c.
Proof.
  unfold frame_total.
  induction 1 as [| [k v] f f' _ IH | [k v] [k' v'] f | f f' f'' _ IH _ IH'];
    simpl.
  - reflexivity.
  - destruct (String.eqb k c); simpl; now rewrite IH.
  - destruct (String.eqb k c), (String.eqb k' c); simpl; lia.
  - now rewrite IH.
Qed.

(** Grouping does not see the order of the rows. *)
Lemma group_sum_Permutation (f f' : list (string * Z)) :
  Permutation f f' -> Pandas.group_sum f = Pandas.group_sum f'.
Proof.
  intros Hp.
  apply (StronglySorted_unique key_lt key_lt_irrefl key_lt_trans);
    try apply group_sum_sorted.
  intros [c n]. rewrite !group_sum_In.
  rewrite (frame_total_Permutation f f' c Hp).
  split; intros [H ->]; (split; [| reflexivity]).
  - exact (Permutation_in _ (Permutation_map fst Hp) H).
  - exact (Permutation_in _ (Permutation_sym (Permutation_map fst Hp)) H).
Qed.

(** ** The ranking query *)

(** C2, as amended: on a table that has at least one row and whose sums per
    label fit in a signed 64-bit integer, when the date's key is a column,
    the query groups all rows by label, sums the counts at that key over the
    rows of each label, sorts the groups by sum, descending, and returns the
    first five labels.  The order among groups of equal sum is not the order
    of first appearance: it is left to the sorting algorithm, which sees the
    groups in ascending order of their labels, so the answer is the same for
    every order of the table's rows. *)
Theorem top5_countries_by_date_ranking
  (quicksort : argsort_kind) (day month year : Z) (g : globals)
  (date : string) :
  is_argsort quicksort ->
  get_date_str day month year = inr date ->
  is_column (confirmed_cases g) date ->
  rows (confirmed_cases g) <> [] ->
  totals_fit (confirmed_cases g) date ->
  (exists ranking,
      ranking_of (confirmed_cases g) date ranking
      /\ top5_countries_by_date quicksort day month year g
         = (inr (firstn 5 (map fst ranking)), g))
  /\ (forall g',
        is_column (confirmed_cases g') date ->
        Permutation (rows (confirmed_cases g)) (rows (confirmed_cases g')) ->
        fst (top5_countries_by_date quicksort day month year g')
        = fst (top5_countries_by_date quicksort day month year g)).
Proof.
  intros Hk Hdate Hcol Hrows Hfit. split.
  - exists (Pandas.sort_rows quicksort false
              (Pandas.group_sum (frame_of (confirmed_cases g) date))).
    split; [| now apply top5_countries_by_date_returns].
    apply (int64_ranking_of_fit _ _ _ Hfit).
    now apply sort_rows_ranking.
  - intros g' Hcol' Hp.
    assert (rows (confirmed_cases g') <> []) as Hrows'.
    { intros E. rewrite E in Hp. apply Permutation_sym, Permutation_nil in Hp.
      contradiction. }
    rewrite (top5_countries_by_date_returns _ _ _ _ g date Hdate Hcol Hrows).
    rewrite (top5_countries_by_date_returns _ _ _ _ g' date Hdate Hcol' Hrows').
    cbn [fst].
    rewrite (group_sum_Permutation (frame_of (confirmed_cases g') date)
               (frame_of (confirmed_cases g) date)); [reflexivity |].
    unfold frame_of. apply Permutation_map. now symmetry.
Qed.

Lemma sample_totals_fit : totals_fit sample "2/27/20".
Proof.
  intros c Hc. simpl in Hc.
  repeat (destruct Hc as [<- | Hc]; [vm_compute; split; congruence |]).
  destruct Hc.
Qed.

Lemma top5_countries_by_date_ranking_witness :
  (exists ranking,
      ranking_of sample "2/27/20" ranking
      /\ top5_countries_by_date insertion_argsort 27 2 2020 (mkGlobals sample)
         = (inr (firstn 5 (map fst ranking)), mkGlobals sample))
  /\ (forall g',
        is_column (confirmed_cases g') "2/27/20" ->
        Permutation (rows sample) (rows (confirmed_cases g')) ->
        fst (top5_countries_by_date insertion_argsort 27 2 2020 g')
        = inr ["China"; "Korea, South"; "Cruise Ship"; "Italy"; "Iran"]).
Proof.
  refine (top5_countries_by_date_ranking insertion_argsort 27 2 2020
            (mkGlobals sample) "2/27/20"
            insertion_argsort_sorts eq_refl _ _ sample_totals_fit).
  - right. left. reflexivity.
  - discriminate.
Defined.

(** C2, as stated, fails on two rows with equal counts.  In [tied_BA] the
    label B appears first and A second; the query answers A, B, where the
    order of first appearance is B, A.  Whatever the sorting algorithm, the
    query gives [tied_BA] and [tied_AB] the same answer, so it cannot follow
    the order of first appearance on both.  It also fails on a table without
    rows, where the query raises the date-not-found error although the key
    is a column, and on [overflowing], where the rows of Poland add up to
    2^63 against 5 for B and the query ranks B first. *)
Lemma top5_countries_by_date_ties :
  get_date_str 1 1 2020 = inr "1/1/20"
  /\ is_column tied_BA "1/1/20"
  /\ fst (top5_countries_by_date insertion_argsort 1 1 2020
            (mkGlobals tied_BA)) = inr ["A"; "B"]
  /\ firstn 5 (first_appearance_ranking tied_BA "1/1/20") = ["B"; "A"]
  /\ (forall quicksort : argsort_kind,
        ~ (fst (top5_countries_by_date quicksort 1 1 2020
                  (mkGlobals tied_BA))
           = inr (firstn 5 (first_appearance_ranking tied_BA "1/1/20"))
           /\ fst (top5_countries_by_date quicksort 1 1 2020
                     (mkGlobals tied_AB))
              = inr (firstn 5 (first_appearance_ranking tied_AB "1/1/20"))))
  /\ (is_column no_rows "1/1/20"
      /\ fst (top5_countries_by_date insertion_argsort 1 1 2020
                (mkGlobals no_rows)) = inl DateNotFoundError)
  /\ (is_column overflowing "1/1/20"
      /\ fst (top5_countries_by_date insertion_argsort 1 1 2020
                (mkGlobals overflowing)) = inr ["B"; "Poland"]
      /\ firstn 5 (first_appearance_ranking overflowing "1/1/20")
         = ["Poland"; "B"]).
Proof.
  split; [reflexivity |]. split; [left; reflexivity |].
  split; [reflexivity |]. split; [reflexivity |].
  split; [| split].
  - intros quicksort [H1 H2].
    rewrite top5_countries_by_date_run in H1, H2.
    cbv in H1, H2. rewrite H1 in H2. discriminate H2.
  - split; [left; reflexivity | reflexivity].
  - split; [left; reflexivity |]. split; vm_compute; reflexivity.
Qed.

(** C8, as amended: on a table that has at least one row and whose sums per
    label fit in a signed 64-bit integer, when the date's key is a column,
    the query returns min(5, number of distinct labels) labels, hence every
    label when there are at most five, and the aggregated counts of the
    returned countries never increase along the answer. *)
Theorem top5_countries_by_date_length
  (quicksort : argsort_kind) (day month year : Z) (g : globals)
  (date : string) :
  is_argsort quicksort ->
  get_date_str day month year = inr date ->
  is_column (confirmed_cases g) date ->
  rows (confirmed_cases g) <> [] ->
  totals_fit (confirmed_cases g) date ->
  exists top,
    top5_countries_by_date quicksort day month year g = (inr top, g)
    /\ List.length top = Nat.min 5 (distinct_countries (confirmed_cases g))
    /\ ((distinct_countries (confirmed_cases g) <= 5)%nat ->
        forall c, In c (country_labels (confirmed_cases g)) -> In c top)
    /\ StronglySorted Z.ge
         (map (country_total (confirmed_cases g) date) top).
Proof.
  intros Hk Hdate Hcol Hrows Hfit.
  pose proof (sort_rows_ranking quicksort (confirmed_cases g) date Hk)
    as Hi.
  set (ranking := Pandas.sort_rows quicksort false
                    (Pandas.group_sum (frame_of (confirmed_cases g) date)))
    in Hi.
  pose proof (proj1 (int64_ranking_of_fit _ _ _ Hfit) Hi) as Hr.
  exists (firstn 5 (map fst ranking)). split; [| split; [| split]].
  - now apply top5_countries_by_date_returns.
  - rewrite length_firstn, length_map.
    now rewrite (ranking_of_length _ _ _ Hi).
  - intros Hle c Hc. rewrite firstn_all2.
    + destruct Hr as (_ & Hin & _). now apply Hin.
    + now rewrite length_map, (ranking_of_length _ _ _ Hi).
  - rewrite <- firstn_map, (ranking_of_totals _ _ _ Hr).
    apply StronglySorted_firstn. now destruct Hr as (_ & _ & _ & Hs).
Qed.

Lemma merged_totals_fit : totals_fit merged "3/1/20".
Proof.
  intros c Hc. simpl in Hc.
  repeat (destruct Hc as [<- | Hc]; [vm_compute; split; congruence |]).
  destruct Hc.
Qed.

Lemma top5_countries_by_date_length_witness :
  exists top,
    top5_countries_by_date insertion_argsort 1 3 2020 (mkGlobals merged)
    = (inr top, mkGlobals merged)
    /\ List.length top = 3%nat
    /\ (forall c, In c (country_labels merged) -> In c top)
    /\ StronglySorted Z.ge (map (country_total merged "3/1/20") top).
Proof.
  destruct (top5_countries_by_date_length insertion_argsort 1 3 2020
              (mkGlobals merged) "3/1/20" insertion_argsort_sorts eq_refl
              (or_introl eq_refl) ltac:(discriminate) merged_totals_fit)
    as (top & Hrun & Hlen & Hall & Hsorted).
  exists top. split; [exact Hrun |]. split; [exact Hlen |].
  split; [| exact Hsorted].
  apply Hall. vm_compute. repeat constructor.
Defined.

(** C8, as stated, fails on a table without rows, where the query raises
    the date-not-found error although the key is a column and the claim has
    it return the empty sequence, and on [overflowing], where the query
    answers B, Poland and the aggregated count of B, 5, is smaller than that
    of Poland, 2^63. *)
Lemma top5_countries_by_date_length_fails :
  get_date_str 1 1 2020 = inr "1/1/20"
  /\ (is_column no_rows "1/1/20"
      /\ distinct_countries no_rows = O
      /\ fst (top5_countries_by_date insertion_argsort 1 1 2020
                (mkGlobals no_rows)) = inl DateNotFoundError)
  /\ (is_column overflowing "1/1/20"
      /\ fst (top5_countries_by_date insertion_argsort 1 1 2020
                (mkGlobals overflowing)) = inr ["B"; "Poland"]
      /\ country_total overflowing "1/1/20" "B" = 5
      /\ country_total overflowing "1/1/20" "Poland" = 2 ^ 63
      /\ ~ StronglySorted Z.ge
             (map (country_total overflowing "1/1/20") ["B"; "Poland"])).
Proof.
  split; [reflexivity |]. split.
  - split; [left; reflexivity |]. split; reflexivity.
  - split; [left; reflexivity |].
    split; [vm_compute; reflexivity |].
    split; [reflexivity |]. split; [reflexivity |].
    intros H. inversion H as [| ? ? _ Hge]; subst.
    inversion Hge as [| ? ? Hc _]; subst.
    vm_compute in Hc. apply Hc. reflexivity.
Qed.

(** C10: when the date's key is a column, no label occurs twice in the
    answer of the query, however many rows the table holds for it; and the
    query does answer whenever the table has a row. *)
Theorem top5_countries_by_date_distinct
  (quicksort : argsort_kind) (day month year : Z) (g : globals)
  (date : string) :
  is_argsort quicksort ->
  get_date_str day month year = inr date ->
  is_column (confirmed_cases g) date ->
  (forall top,
      fst (top5_countries_by_date quicksort day month year g) = inr top ->
      NoDup top)
  /\ (rows (confirmed_cases g) <> [] ->
      exists top,
        top5_countries_by_date quicksort day month year g = (inr top, g)
        /\ NoDup top).
Proof.
  intros Hk Hdate Hcol.
  destruct (sort_rows_ranking quicksort (confirmed_cases g) date Hk)
    as (Hnd & _).
  split.
  - intros top Htop.
    destruct (rows (confirmed_cases g)) as [| r l] eqn:Hr.
    + rewrite (top5_countries_by_date_no_rows _ _ _ _ _ _ Hdate Hr) in Htop.
      discriminate Htop.
    + rewrite (top5_countries_by_date_returns _ _ _ _ _ _ Hdate Hcol)
        in Htop by congruence.
      cbn [fst] in Htop.
      assert (top = firstn 5
                (map fst
                   (Pandas.sort_rows quicksort false
                      (Pandas.group_sum
                         (frame_of (confirmed_cases g) date))))) as ->
        by congruence.
      now apply NoDup_firstn_of.
  - intros Hrows. eexists. split.
    + exact (top5_countries_by_date_returns _ _ _ _ _ _ Hdate Hcol Hrows).
    + now apply NoDup_firstn_of.
Qed.

Lemma top5_countries_by_date_distinct_witness :
  exists top,
    top5_countries_by_date insertion_argsort 27 2 2020 (mkGlobals sample)
    = (inr top, mkGlobals sample)
    /\ NoDup top.
Proof.
  refine (proj2 (top5_countries_by_date_distinct insertion_argsort 27 2 2020
                   (mkGlobals sample) "2/27/20" insertion_argsort_sorts
                   eq_refl _) _).
  - right. left. reflexivity.
  - discriminate.
Defined.

(** ** Failures of the count of changed rows *)

(** C7, as amended: for a calendar date within the bounds, the count of
    changed rows raises the date-not-found error when the key of the date is
    not a column and, for a date after 1 January 2010, when the key of the
    previous calendar day is not a column, as for the first date of the
    series.  A date within the bounds that is not a calendar date, such as
    31 February 2020, passes the formatter; the count of changed rows then
    raises the invalid-date error when it parses the key, before any column
    is looked up, while the lookup and the ranking raise the date-not-found
    error when the table has no such column. *)
Theorem no_new_cases_count_errors (day month year : Z) (g : globals) :
  in_bounds day month year ->
  get_date_str day month year = inr (DateKey day month year)
  /\ (calendar_date day month year ->
      (~ is_column (confirmed_cases g) (DateKey day month year) ->
       no_new_cases_count day month year g = (inl DateNotFoundError, g))
      /\ (after_1_Jan_2010 day month year ->
          ~ is_column (confirmed_cases g)
              (DateKey_of (previous_day day month year)) ->
          no_new_cases_count day month year g = (inl DateNotFoundError, g)))
  /\ (~ calendar_date day month year ->
      no_new_cases_count day month year g = (inl InvalidDateError, g))
  /\ (get_date_str 31 2 2020 = inr "2/31/20"
      /\ no_new_cases_count 31 2 2020 g = (inl InvalidDateError, g)
      /\ (~ is_column (confirmed_cases g) "2/31/20" ->
          poland_cases_by_date 31 2 2020 g = (inl DateNotFoundError, g)
          /\ forall quicksort,
               top5_countries_by_date quicksort 31 2 2020 g
               = (inl DateNotFoundError, g))).
Proof.
  intros Hb. pose proof (get_date_str_in_bounds _ _ _ Hb) as Hdate.
  split; [assumption |]. split; [| split].
  - intros Hc. split.
    + intros Hmissing.
      destruct (prev_date_str_calendar _ _ _ Hb Hc) as (prev & Hprev & _).
      rewrite no_new_cases_count_run, Hdate, Hprev.
      now rewrite (has_column_not_In _ _ Hmissing).
    + intros Ha Hmissing.
      rewrite no_new_cases_count_run, Hdate.
      rewrite (prev_date_str_after_2010 _ _ _ Hb Hc Ha).
      rewrite (has_column_not_In _ _ Hmissing). now rewrite andb_false_r.
  - intros Hc. rewrite no_new_cases_count_run, Hdate.
    now rewrite (prev_date_str_not_calendar _ _ _ Hb Hc).
  - assert (get_date_str 31 2 2020 = inr "2/31/20") as H31 by reflexivity.
    split; [assumption |]. split.
    + now rewrite no_new_cases_count_run.
    + intros Hcol. split.
      * rewrite poland_cases_by_date_run, H31.
        now rewrite (has_column_not_In _ _ Hcol).
      * intros quicksort. rewrite top5_countries_by_date_run, H31.
        now rewrite (has_column_not_In _ _ Hcol).
Qed.

(** In [sample] the first date, 26 February 2020, has no predecessor among
    the columns, 28 February 2020 is not a column, and 31 February 2020 is
    no date. *)
Lemma no_new_cases_count_errors_witness :
  no_new_cases_count 26 2 2020 (mkGlobals sample)
  = (inl KeyError, mkGlobals sample)
  /\ no_new_cases_count 28 2 2020 (mkGlobals sample)
     = (inl KeyError, mkGlobals sample)
  /\ no_new_cases_count 31 2 2020 (mkGlobals sample)
     = (inl ValueError, mkGlobals sample).
Proof.
  split; [| split].
  - refine (proj2 (proj1 (proj2 (no_new_cases_count_errors 26 2 2020
                                   (mkGlobals sample) _)) _) _ _).
    + unfold in_bounds. lia.
    + unfold calendar_date. simpl. lia.
    + left. lia.
    + intros [H | [H | []]]; discriminate H.
  - refine (proj1 (proj1 (proj2 (no_new_cases_count_errors 28 2 2020
                                   (mkGlobals sample) _)) _) _).
    + unfold in_bounds. lia.
    + unfold calendar_date. simpl. lia.
    + intros [H | [H | []]]; discriminate H.
  - refine (proj1 (proj2 (proj2 (no_new_cases_count_errors 31 2 2020
                                   (mkGlobals sample) _))) _).
    + unfold in_bounds. lia.
    + unfold calendar_date. simpl. lia.
Defined.

(** C7, as stated, fails on 31 February 2020: the formatter accepts the
    date, the table has no such column, and the count of changed rows raises
    the invalid-date error, not the date-not-found error. *)
Lemma no_new_cases_count_31_February :
  in_bounds 31 2 2020
  /\ get_date_str 31 2 2020 = inr "2/31/20"
  /\ ~ is_column sample "2/31/20"
  /\ fst (no_new_cases_count 31 2 2020 (mkGlobals sample))
     = inl InvalidDateError
  /\ fst (no_new_cases_count 31 2 2020 (mkGlobals sample))
     <> inl DateNotFoundError.
Proof.
  split; [unfold in_bounds; lia |]. split; [reflexivity |].
  split; [intros [H | [H | []]]; discriminate H |].
  split; [reflexivity | discriminate].
Qed.

(** Month and year boundaries, with and without a leap day. *)
Example prev_date_str_boundaries :
  prev_date_str "3/1/20" = inr "2/29/20"
  /\ prev_date_str "3/1/19" = inr "2/28/19"
  /\ prev_date_str "1/1/20" = inr "12/31/19"
  /\ prev_date_str "5/1/20" = inr "4/30/20".
Proof. repeat split. Qed.

(** ** The queries do not touch the table *)

Lemma top5_countries_by_date_reads (kind : argsort_kind) (d m y : Z)
  (g : globals) :
  snd (top5_countries_by_date kind d m y g) = g.
Proof. now rewrite top5_countries_by_date_run. Qed.

Lemma no_new_cases_count_reads (d m y : Z) (g : globals) :
  snd (no_new_cases_count d m y g) = g.
Proof. now rewrite no_new_cases_count_run. Qed.

Lemma poland_cases_by_date_reads (d m y : Z) (g : globals) :
  snd (poland_cases_by_date d m y g) = g.
Proof. now rewrite poland_cases_by_date_run. Qed.

(** C9: the lookup leaves the table as it found it, so two calls with the
    same arguments, one after the other, return the same value or raise the
    same error; none of the other queries changes the table in between
    either. *)
Theorem poland_cases_by_date_repeatable (day month year : Z) (g : globals) :
  snd (poland_cases_by_date day month year g) = g
  /\ (first <- poland_cases_by_date day month year ;;
      second <- poland_cases_by_date day month year ;;
      ret (first, second)) g
     = (match fst (poland_cases_by_date day month year g) with
        | inr v => inr (v, v)
        | inl e => inl e
        end, g)
  /\ (forall quicksort d m y,
        fst (poland_cases_by_date day month year
               (snd (top5_countries_by_date quicksort d m y g)))
        = fst (poland_cases_by_date day month year g))
  /\ (forall d m y,
        fst (poland_cases_by_date day month year
               (snd (no_new_cases_count d m y g)))
        = fst (poland_cases_by_date day month year g)).
Proof.
  split; [apply poland_cases_by_date_reads |]. split; [| split].
  - unfold bind.
    pose proof (poland_cases_by_date_reads day month year g) as Hg.
    destruct (poland_cases_by_date day month year g) as [[e | v] g'] eqn:E;
      simpl in Hg; subst g'; simpl; [reflexivity |].
    now rewrite E.
  - intros. now rewrite top5_countries_by_date_reads.
  - intros. now rewrite no_new_cases_count_reads.
Qed.

(** * Properties beyond the specification *)

(** ** Reading the checks *)

Lemma is_string_iff (r : result string) (s : string) :
  is_string r s = true <-> r = inr s.
Proof.
  split; [apply is_string_true |].
  intros ->. simpl. apply String.eqb_refl.
Qed.

Lemma is_date_true (r : result Datetime.date) (d m y : Z) :
  is_date r (d, m, y) = true -> r = inr (Datetime.mkdate y m d).
Proof.
  destruct r as [e | [y' m' d']]; simpl; [discriminate |].
  rewrite !andb_true_iff, !Z.eqb_eq. intros ((-> & ->) & ->). reflexivity.
Qed.

Lemma is_fields_true (o : option (Z * Z * Z)) (d m y : Z) :
  is_fields o (d, m, y) = true -> o = Some (d, m, y).
Proof.
  destruct o as [[[d' m'] y'] |]; simpl; [| discriminate].
  rewrite !andb_true_iff, !Z.eqb_eq. intros ((-> & ->) & ->). reflexivity.
Qed.

Lemma calendar_dateb_iff (d m y : Z) :
  calendar_dateb d m y = true <-> calendar_date d m y.
Proof.
  split; [| apply calendar_dateb_true].
  unfold calendar_dateb, calendar_date.
  rewrite !andb_true_iff, !Z.leb_le. tauto.
Qed.

Lemma after_1_Jan_2010b_iff (d m y : Z) :
  after_1_Jan_2010b d m y = true <-> after_1_Jan_2010 d m y.
Proof.
  split; [| apply after_1_Jan_2010b_true].
  unfold after_1_Jan_2010b, after_1_Jan_2010.
  rewrite !orb_true_iff, !andb_true_iff, !orb_true_iff, !Z.ltb_lt, Z.eqb_eq.
  tauto.
Qed.

Lemma first_of_2000b_iff (d m y : Z) :
  first_of_2000b d m y = true <-> first_of_2000 d m y.
Proof.
  unfold first_of_2000b, first_of_2000.
  rewrite !andb_true_iff, !Z.eqb_eq. tauto.
Qed.

Lemma check_roundtrip_all : all_in_bounds check_roundtrip = true.
Proof. vm_compute. reflexivity. Qed.

Lemma check_fields_all : all_in_bounds check_fields = true.
Proof. vm_compute. reflexivity. Qed.

Lemma check_previous_all : all_in_bounds check_previous = true.
Proof. vm_compute. reflexivity. Qed.

Lemma check_extent_all : all_in_bounds check_extent = true.
Proof. vm_compute. reflexivity. Qed.

Lemma year_mod_100 (y : Z) : 2000 <= y <= 2020 -> y mod 100 = y - 2000.
Proof.
  intros H. symmetry. apply (Z.mod_unique y 100 20); lia.
Qed.

(** ** Keys and dates *)

(** X1: a key made by the formatter from a calendar date parses back, under
    the format of [no_new_cases_count], to the year, month and day it was
    made from. *)
Theorem strptime_get_date_str (day month year : Z) (key : string) :
  calendar_date day month year ->
  get_date_str day month year = inr key ->
  Datetime.strptime key = inr (Datetime.mkdate year month day).
Proof.
  intros Hc Hkey.
  pose proof (get_date_str_returns _ _ _ _ Hkey) as Hb.
  apply get_date_str_DateKey in Hkey. subst key.
  pose proof (all_in_bounds_spec _ check_roundtrip_all _ _ _ Hb) as H.
  unfold check_roundtrip in H.
  rewrite (calendar_dateb_true _ _ _ Hc) in H.
  now apply is_date_true.
Qed.

Lemma strptime_get_date_str_witness :
  Datetime.strptime "2/29/20" = inr (Datetime.mkdate 2020 2 29).
Proof.
  refine (strptime_get_date_str 29 2 2020 "2/29/20" _ eq_refl).
  unfold calendar_date. simpl. lia.
Defined.

(** X2: the formatter never gives two dates the same key: when it returns
    the same key for two triples of day, month and year, the triples are
    equal. *)
Theorem get_date_str_injective (day month year day' month' year' : Z)
  (key : string) :
  get_date_str day month year = inr key ->
  get_date_str day' month' year' = inr key ->
  day = day' /\ month = month' /\ year = year'.
Proof.
  intros H H'.
  pose proof (get_date_str_returns _ _ _ _ H) as Hb.
  pose proof (get_date_str_returns _ _ _ _ H') as Hb'.
  apply get_date_str_DateKey in H. apply get_date_str_DateKey in H'.
  pose proof (is_fields_true _ _ _ _
                (all_in_bounds_spec _ check_fields_all _ _ _ Hb)) as F.
  pose proof (is_fields_true _ _ _ _
                (all_in_bounds_spec _ check_fields_all _ _ _ Hb')) as F'.
  rewrite <- H in F. rewrite <- H' in F'. rewrite F in F'.
  injection F' as -> -> Hy.
  destruct Hb as (_ & _ & Hy1), Hb' as (_ & _ & Hy2).
  rewrite (year_mod_100 _ Hy1), (year_mod_100 _ Hy2) in Hy.
  repeat split. lia.
Qed.

Lemma get_date_str_injective_witness :
  11 = 11 /\ 1 = 1 /\ 2020 = 2020.
Proof.
  exact (get_date_str_injective 11 1 2020 11 1 2020 "1/11/20"
           eq_refl eq_refl).
Defined.

(** X3: for every calendar date within the bounds, February, the turn of
    the year and leap years included, the day that [no_new_cases_count]
    takes for the previous day is the previous calendar day, and the key it
    builds for that day has no padded field: month, day and the year modulo
    100 all come without a leading zero. *)
Theorem prev_date_str_unpadded (day month year : Z) (key : string) :
  calendar_date day month year ->
  get_date_str day month year = inr key ->
  Datetime.sub_days (Datetime.mkdate year month day) 1
  = inr (date_of (previous_day day month year))
  /\ prev_date_str key = inr (unpadded_key_of (previous_day day month year)).
Proof.
  intros Hc Hkey.
  pose proof (get_date_str_returns _ _ _ _ Hkey) as Hb.
  apply get_date_str_DateKey in Hkey. subst key.
  pose proof (all_in_bounds_spec _ check_previous_all _ _ _ Hb) as H.
  unfold check_previous in H.
  rewrite (calendar_dateb_true _ _ _ Hc) in H.
  apply andb_prop in H. destruct H as [H1 H2].
  destruct (previous_day day month year) as [[d' m'] y'].
  split; [now apply is_date_true | now apply is_string_true].
Qed.

Lemma prev_date_str_unpadded_witness :
  Datetime.sub_days (Datetime.mkdate 2004 3 1) 1
  = inr (Datetime.mkdate 2004 2 29)
  /\ prev_date_str "3/1/04" = inr "2/29/4".
Proof.
  refine (prev_date_str_unpadded 1 3 2004 "3/1/04" _ eq_refl).
  unfold calendar_date. simpl. lia.
Defined.

(** X4: for a calendar date within the bounds, the key that
    [no_new_cases_count] builds for the previous day is that day's column
    key, with its two-digit year, exactly when the date lies after
    1 January 2010 or is 1 January 2000. *)
Theorem prev_date_str_column_key_iff (day month year : Z) (key : string) :
  calendar_date day month year ->
  get_date_str day month year = inr key ->
  (prev_date_str key = inr (DateKey_of (previous_day day month year))
   <-> after_1_Jan_2010 day month year \/ first_of_2000 day month year).
Proof.
  intros Hc Hkey.
  pose proof (get_date_str_returns _ _ _ _ Hkey) as Hb.
  apply get_date_str_DateKey in Hkey. subst key.
  pose proof (all_in_bounds_spec _ check_extent_all _ _ _ Hb) as H.
  unfold check_extent in H.
  rewrite (calendar_dateb_true _ _ _ Hc) in H.
  apply Bool.eqb_prop in H.
  rewrite <- is_string_iff, H, orb_true_iff.
  now rewrite after_1_Jan_2010b_iff, first_of_2000b_iff.
Qed.

Lemma prev_date_str_column_key_iff_witness :
  prev_date_str "1/1/10" = inr (DateKey_of (previous_day 1 1 2010))
  <-> after_1_Jan_2010 1 1 2010 \/ first_of_2000 1 1 2010.
Proof.
  refine (prev_date_str_column_key_iff 1 1 2010 "1/1/10" _ eq_refl).
  unfold calendar_date. simpl. lia.
Defined.

(** ** What the count of changed rows returns *)

Lemma changed_both_ways (date prev : string) (l : list Row) :
  Z.of_nat (List.length (filter (changed date prev) l))
  = Z.of_nat (List.length (filter (increased date prev) l))
    + Z.of_nat (List.length (filter (decreased date prev) l)).
Proof.
  rewrite <- Nat2Z.inj_add. f_equal.
  induction l as [| r l IH]; [reflexivity |].
  cbn [filter]. unfold changed, increased, decreased in *.
  destruct (Z.eqb_spec (cases r date) (cases r prev)) as [E | E],
    (Z.ltb_spec (cases r prev) (cases r date)),
    (Z.ltb_spec (cases r date) (cases r prev));
    cbn [negb List.length]; lia.
Qed.

Lemma filter_length_le {A : Type} (f : A -> bool) (l : list A) :
  (List.length (filter f l) <= List.length l)%nat.
Proof.
  induction l as [| a l IH]; simpl; [lia |].
  destruct (f a); simpl; lia.
Qed.

Lemma filter_nil_iff {A : Type} (f : A -> bool) (l : list A) :
  List.length (filter f l) = O <-> forall a, In a l -> f a = false.
Proof.
  induction l as [| a l IH]; simpl.
  - split; [intros _ x [] | reflexivity].
  - destruct (f a) eqn:E; simpl.
    + split; [discriminate |]. intros H.
      specialize (H a (or_introl eq_refl)). congruence.
    + rewrite IH. split.
      * intros H x [<- | Hx]; [assumption | now apply H].
      * intros H x Hx. apply H. now right.
Qed.

(** X6: when the count of changed rows returns a number, the table is left
    as it was, the key of the date and the key computed for the previous
    day are two different columns, and the number is the number of rows
    whose count went up plus the number of rows whose count went down; it
    lies between zero and the number of rows, and it is zero exactly when
    no row differs between the two columns. *)
Theorem no_new_cases_count_returns
  (day month year : Z) (g g' : globals) (n : Z) :
  no_new_cases_count day month year g = (inr n, g') ->
  g' = g
  /\ exists date prev,
       get_date_str day month year = inr date
       /\ prev_date_str date = inr prev
       /\ date <> prev
       /\ is_column (confirmed_cases g) date
       /\ is_column (confirmed_cases g) prev
       /\ n = count_rows (increased date prev) (confirmed_cases g)
              + count_rows (decreased date prev) (confirmed_cases g)
       /\ 0 <= n <= Z.of_nat (List.length (rows (confirmed_cases g)))
       /\ (n = 0 <->
           forall r, In r (rows (confirmed_cases g)) ->
                     cases r date = cases r prev).
Proof.
  rewrite no_new_cases_count_run.
  destruct (get_date_str day month year) as [e | date] eqn:Hdate;
    [discriminate |].
  destruct (prev_date_str date) as [e | prev] eqn:Hprev; [discriminate |].
  destruct (Pandas.has_column (confirmed_cases g) date) eqn:Hd;
    [| discriminate].
  destruct (Pandas.has_column (confirmed_cases g) prev) eqn:Hp;
    [| discriminate].
  simpl. intros [= <- <-]. split; [reflexivity |].
  exists date, prev. split; [reflexivity |]. split; [exact Hprev |].
  split.
  { pose proof (get_date_str_returns _ _ _ _ Hdate) as Hb.
    pose proof (get_date_str_DateKey _ _ _ _ Hdate) as ->.
    pose proof (all_in_bounds_spec _ check_parse_all _ _ _ Hb) as H.
    unfold check_parse in H. rewrite Hprev in H.
    destruct (calendar_dateb day month year); [| discriminate H].
    apply negb_true_iff, String.eqb_neq in H. congruence. }
  split; [now apply has_column_In |]. split; [now apply has_column_In |].
  unfold changed_rows, count_rows. split; [apply changed_both_ways |].
  split.
  - pose proof (filter_length_le (changed date prev)
                  (rows (confirmed_cases g))). lia.
  - rewrite <- Nat2Z.inj_0, Nat2Z.inj_iff, filter_nil_iff.
    unfold changed. split; intros H r Hr; specialize (H r Hr).
    + apply negb_false_iff in H. now apply Z.eqb_eq.
    + apply negb_false_iff. now apply Z.eqb_eq.
Qed.

Lemma no_new_cases_count_returns_witness :
  mkGlobals sample = mkGlobals sample
  /\ exists date prev,
       get_date_str 27 2 2020 = inr date
       /\ prev_date_str date = inr prev
       /\ date <> prev
       /\ is_column sample date
       /\ is_column sample prev
       /\ 6 = count_rows (increased date prev) sample
              + count_rows (decreased date prev) sample
       /\ 0 <= 6 <= Z.of_nat (List.length (rows sample))
       /\ (6 = 0 <->
           forall r, In r (rows sample) -> cases r date = cases r prev).
Proof.
  exact (no_new_cases_count_returns 27 2 2020 (mkGlobals sample)
           (mkGlobals sample) 6 eq_refl).
Defined.

(** X7: the count of changed rows raises the invalid-date error exactly
    when the date is out of bounds or is not a calendar date, whatever the
    table holds; the only other error it raises is the date-not-found
    error. *)
Theorem no_new_cases_count_ValueError (day month year : Z) (g : globals) :
  (fst (no_new_cases_count day month year g) = inl ValueError
   <-> ~ (in_bounds day month year /\ calendar_date day month year))
  /\ (forall e,
        fst (no_new_cases_count day month year g) = inl e ->
        e = ValueError \/ e = KeyError).
Proof.
  rewrite no_new_cases_count_run. cbn [fst].
  destruct (get_date_str day month year) as [e | date] eqn:Hdate.
  - assert (~ in_bounds day month year) as Hb.
    { intros Hb. rewrite (get_date_str_in_bounds _ _ _ Hb) in Hdate.
      discriminate. }
    rewrite (get_date_str_out_of_bounds _ _ _ Hb) in Hdate.
    injection Hdate as <-. split.
    + split; [tauto | reflexivity].
    + intros e [= <-]. now left.
  - pose proof (get_date_str_returns _ _ _ _ Hdate) as Hb.
    pose proof (get_date_str_DateKey _ _ _ _ Hdate) as ->.
    destruct (calendar_dateb day month year) eqn:Hc.
    + apply calendar_dateb_iff in Hc.
      destruct (prev_date_str_calendar _ _ _ Hb Hc) as (prev & -> & _).
      destruct (_ && _); split.
      * split; [discriminate | tauto].
      * discriminate.
      * split; [discriminate | tauto].
      * intros e [= <-]. now right.
    + assert (~ calendar_date day month year) as Hn.
      { intros H. apply calendar_dateb_iff in H. congruence. }
      rewrite (prev_date_str_not_calendar _ _ _ Hb Hn). split.
      * split; [tauto | reflexivity].
      * intros e [= <-]. now left.
Qed.

(** ** Failures of the ranking query *)

(** X8: the ranking query raises the invalid-date error exactly when the
    date is out of bounds, and the date-not-found error exactly when the
    date is within the bounds and either its key is not a column or the
    table has no rows; it raises nothing else, whatever the sorting
    algorithm. *)
Theorem top5_countries_by_date_errors
  (quicksort : argsort_kind) (day month year : Z) (g : globals) :
  (fst (top5_countries_by_date quicksort day month year g) = inl ValueError
   <-> ~ in_bounds day month year)
  /\ (fst (top5_countries_by_date quicksort day month year g) = inl KeyError
      <-> in_bounds day month year
          /\ (~ is_column (confirmed_cases g) (DateKey day month year)
              \/ rows (confirmed_cases g) = []))
  /\ (forall e,
        fst (top5_countries_by_date quicksort day month year g) = inl e ->
        e = ValueError \/ e = KeyError).
Proof.
  rewrite top5_countries_by_date_run. cbn [fst].
  destruct (get_date_str day month year) as [e | date] eqn:Hdate.
  - assert (~ in_bounds day month year) as Hb.
    { intros Hb. rewrite (get_date_str_in_bounds _ _ _ Hb) in Hdate.
      discriminate. }
    rewrite (get_date_str_out_of_bounds _ _ _ Hb) in Hdate.
    injection Hdate as <-. split; [| split].
    + split; [tauto | reflexivity].
    + split; [discriminate | tauto].
    + intros e [= <-]. now left.
  - pose proof (get_date_str_returns _ _ _ _ Hdate) as Hb.
    pose proof (get_date_str_DateKey _ _ _ _ Hdate) as ->.
    destruct (Pandas.has_column (confirmed_cases g) (DateKey day month year))
      eqn:Hc.
    + apply has_column_In in Hc.
      destruct (rows (confirmed_cases g)) as [| r l].
      * split; [| split].
        -- split; [discriminate | tauto].
        -- split; [tauto | reflexivity].
        -- intros e [= <-]. now right.
      * split; [| split].
        -- split; [discriminate | tauto].
        -- split; [discriminate |].
           intros [_ [H | H]]; [tauto | discriminate].
        -- discriminate.
    + assert (~ is_column (confirmed_cases g) (DateKey day month year)) as Hn.
      { intros H. apply has_column_In in H. congruence. }
      split; [| split].
      * split; [discriminate | tauto].
      * split; [tauto | reflexivity].
      * intros e [= <-]. now right.
Qed.

(** ** What the ranking query returns *)








(** ** The ranking when no two totals are equal *)

Lemma first_appearances_In (l : list string) (x : string) :
  In x (first_appearances l) <-> In x l.
Proof.
  induction l as [| a l IH]; simpl; [tauto |].
  rewrite filter_In, IH, negb_true_iff, String.eqb_neq.
  destruct (string_dec a x) as [-> | Hne]; [tauto |].
  split; [tauto |]. intros [H | H]; [tauto |]. right. split; congruence.
Qed.

Lemma first_appearances_NoDup (l : list string) :
  NoDup (first_appearances l).
Proof.
  induction l as [| a l IH]; simpl; constructor.
  - rewrite filter_In, negb_true_iff, String.eqb_neq. tauto.
  - now apply NoDup_filter.
Qed.

Lemma insert_desc_Permutation (x : string * Z) (l : list (string * Z)) :
  Permutation (insert_desc x l) (x :: l).
Proof.
  induction l as [| y l IH]; simpl; [reflexivity |].
  destruct (snd y <=? snd x); [reflexivity |].
  rewrite IH. apply perm_swap.
Qed.

Lemma insert_desc_sorted (x : string * Z) (l : list (string * Z)) :
  StronglySorted Z.ge (map snd l) ->
  StronglySorted Z.ge (map snd (insert_desc x l)).
Proof.
  induction l as [| y l IH]; simpl; intros Hs.
  - constructor; constructor.
  - inversion Hs as [| ? ? Hs' Hy]; subst.
    destruct (Z.leb_spec (snd y) (snd x)) as [Hle | Hgt]; simpl.
    + constructor; [assumption |]. constructor; [lia |].
      rewrite Forall_forall in *. intros n Hn. specialize (Hy n Hn). lia.
    + constructor; [now apply IH |].
      rewrite Forall_forall in *. intros n Hn.
      apply in_map_iff in Hn. destruct Hn as (p & <- & Hp).
      apply (Permutation_in _ (insert_desc_Permutation x l)) in Hp.
      destruct Hp as [<- | Hp]; [lia |].
      apply Hy. now apply in_map.
Qed.

Lemma stable_sort_desc_sorts (l : list (string * Z)) :
  Permutation (stable_sort_desc l) l
  /\ StronglySorted Z.ge (map snd (stable_sort_desc l)).
Proof.
  unfold stable_sort_desc. induction l as [| x l [Hp Hs]]; simpl.
  - split; [reflexivity | constructor].
  - split; [| now apply insert_desc_sorted].
    rewrite insert_desc_Permutation. now constructor.
Qed.

Lemma first_appearance_ranking_of (df : DataFrame) (date : string) :
  ranking_of df date
    (stable_sort_desc
       (map (fun c => (c, country_total df date c))
          (first_appearances (country_labels df)))).
Proof.
  destruct (stable_sort_desc_sorts
              (map (fun c => (c, country_total df date c))
                 (first_appearances (country_labels df)))) as [Hp Hs].
  assert (map fst (map (fun c => (c, country_total df date c))
                     (first_appearances (country_labels df)))
          = first_appearances (country_labels df)) as Hkeys.
  { rewrite map_map. simpl. apply map_id. }
  pose proof (Permutation_map fst Hp) as Hpk. rewrite Hkeys in Hpk.
  split; [| split; [| split]].
  - apply (Permutation_NoDup (Permutation_sym Hpk)).
    apply first_appearances_NoDup.
  - intros c. split; intros H.
    + apply first_appearances_In. exact (Permutation_in _ Hpk H).
    + apply (Permutation_in _ (Permutation_sym Hpk)).
      now apply first_appearances_In.
  - intros c n H. apply (Permutation_in _ Hp) in H.
    apply in_map_iff in H. destruct H as (c' & [= <- <-] & _). reflexivity.
  - assumption.
Qed.

Lemma ranking_of_strict (df : DataFrame) (date : string)
  (ranking : list (string * Z)) :
  distinct_totals df date -> ranking_of df date ranking ->
  StronglySorted total_gt ranking.
Proof.
  intros Hd (Hnd & Hin & Ht & Hs).
  assert (forall p, In p ranking ->
                    In (fst p) (country_labels df)
                    /\ snd p = country_total df date (fst p)) as Hp.
  { intros [c n] H. split.
    - apply Hin. now apply (in_map fst) in H.
    - now apply Ht. }
  clear Hin Ht. induction ranking as [| p l IH]; [constructor |].
  simpl in Hnd, Hs.
  inversion Hnd as [| ? ? Hp1 Hnd']; subst.
  inversion Hs as [| ? ? Hs' Hge]; subst.
  constructor.
  - apply IH; try assumption. intros q Hq. apply Hp. now right.
  - rewrite Forall_forall in *. intros q Hq. unfold total_gt.
    pose proof (Hge (snd q) (in_map snd _ _ Hq)) as Hpq.
    destruct (Z.eq_dec (snd p) (snd q)) as [E | E]; [| lia].
    destruct (Hp p (or_introl eq_refl)) as [Hlp Htp].
    destruct (Hp q (or_intror Hq)) as [Hlq Htq].
    rewrite Htp, Htq in E. apply (Hd _ _ Hlp Hlq) in E.
    destruct Hp1. rewrite E. now apply in_map.
Qed.

Lemma total_gt_irrefl (p : string * Z) : ~ total_gt p p.
Proof. unfold total_gt. lia. Qed.

Lemma total_gt_trans (p q r : string * Z) :
  total_gt p q -> total_gt q r -> total_gt p r.
Proof. unfold total_gt. lia. Qed.

Lemma ranking_of_unique (df : DataFrame) (date : string)
  (r1 r2 : list (string * Z)) :
  distinct_totals df date ->
  ranking_of df date r1 -> ranking_of df date r2 -> r1 = r2.
Proof.
  intros Hd H1 H2.
  apply (StronglySorted_unique total_gt total_gt_irrefl total_gt_trans);
    try (eapply ranking_of_strict; eassumption).
  assert (forall a b, ranking_of df date a -> ranking_of df date b ->
                      forall x, In x a -> In x b) as Hsub.
  { intros a b (_ & Ha & Hta & _) (_ & Hb & Htb & _) [c n] Hx.
    pose proof (Hta _ _ Hx) as ->.
    assert (In c (map fst b)) as Hc
      by (apply Hb, Ha; now apply (in_map fst) in Hx).
    apply in_map_iff in Hc. destruct Hc as ([c' n'] & E & Hc).
    simpl in E. subst c'. now rewrite <- (Htb _ _ Hc). }
  intros x. split; now apply Hsub.
Qed.

(** X11: when the date's key is a column, the table has a row, every total
    fits in a signed 64-bit integer and no two countries of the table have
    the same total at that key, the answer of the ranking query does not
    depend on the sorting algorithm: it is the first five labels of the
    stable descending ranking of the countries taken in order of first
    appearance. *)
Theorem top5_countries_by_date_no_ties
  (quicksort : argsort_kind) (day month year : Z) (g : globals)
  (date : string) :
  is_argsort quicksort ->
  get_date_str day month year = inr date ->
  is_column (confirmed_cases g) date ->
  rows (confirmed_cases g) <> [] ->
  totals_fit (confirmed_cases g) date ->
  distinct_totals (confirmed_cases g) date ->
  top5_countries_by_date quicksort day month year g
  = (inr (firstn 5 (first_appearance_ranking (confirmed_cases g) date)), g).
Proof.
  intros Hk Hdate Hcol Hrows Hfit Hd.
  rewrite (top5_countries_by_date_returns _ _ _ _ g date Hdate Hcol Hrows).
  unfold first_appearance_ranking.
  now rewrite (ranking_of_unique _ _ _ _ Hd
                 (proj1 (int64_ranking_of_fit _ _ _ Hfit)
                    (sort_rows_ranking quicksort _ date Hk))
                 (first_appearance_ranking_of _ date)).
Qed.

Lemma top5_countries_by_date_no_ties_witness :
  top5_countries_by_date insertion_argsort 1 3 2020 (mkGlobals merged)
  = (inr ["China"; "Italy"; "Iran"], mkGlobals merged).
Proof.
  refine (top5_countries_by_date_no_ties insertion_argsort 1 3 2020
            (mkGlobals merged) "3/1/20" insertion_argsort_sorts eq_refl
            _ _ merged_totals_fit _).
  - left. reflexivity.
  - discriminate.
  - intros c c' [<- | [<- | [<- | []]]] [<- | [<- | [<- | []]]] E;
      try reflexivity; vm_compute in E; discriminate E.
Defined.

(** ** The queries side by side *)

(** X12: the three queries check the date in the same way.  The lookup and
    the ranking raise the invalid-date error on the same arguments; where
    the lookup raises the date-not-found error so does the ranking, and
    where the ranking raises it the lookup raises it too or finds no row of
    Poland; a date the ranking refuses as invalid is refused as invalid by
    the count of changed rows; and on a table that has a row, whenever the
    count of changed rows returns a number, the ranking returns a list. *)
Theorem queries_agree_on_the_date
  (quicksort : argsort_kind) (day month year : Z) (g : globals) :
  (fst (poland_cases_by_date day month year g) = inl ValueError
   <-> fst (top5_countries_by_date quicksort day month year g)
       = inl ValueError)
  /\ (fst (poland_cases_by_date day month year g) = inl KeyError ->
      fst (top5_countries_by_date quicksort day month year g)
      = inl KeyError)
  /\ (fst (top5_countries_by_date quicksort day month year g)
      = inl KeyError ->
      fst (poland_cases_by_date day month year g) = inl KeyError
      \/ fst (poland_cases_by_date day month year g) = inl IndexError)
  /\ (fst (top5_countries_by_date quicksort day month year g)
      = inl ValueError ->
      fst (no_new_cases_count day month year g) = inl ValueError)
  /\ (forall n,
        fst (no_new_cases_count day month year g) = inr n ->
        (exists top,
            fst (top5_countries_by_date quicksort day month year g)
            = inr top)
        \/ (n = 0 /\ rows (confirmed_cases g) = [])).
Proof.
  rewrite poland_cases_by_date_run, top5_countries_by_date_run,
    no_new_cases_count_run.
  cbn [fst]. unfold changed_rows.
  destruct (get_date_str day month year) as [e | date].
  - split; [split; intros [= ->]; reflexivity |].
    split; [intros [= ->]; reflexivity |].
    split; [intros [= ->]; now left |].
    split; [intros [= ->]; reflexivity |].
    intros n H. discriminate H.
  - destruct (Pandas.has_column (confirmed_cases g) date).
    + destruct (rows (confirmed_cases g)) as [| r l].
      * cbn [filter]. split; [split; discriminate |].
        split; [discriminate |]. split; [now right |].
        split; [discriminate |].
        intros n H. right. split; [| reflexivity].
        destruct (prev_date_str date); [discriminate H |].
        destruct (_ && _); [| discriminate H]. now injection H as <-.
      * split; [split; [| discriminate] |].
        { destruct (filter is_Poland (r :: l)); discriminate. }
        split; [destruct (filter is_Poland (r :: l)); discriminate |].
        split; [discriminate |]. split; [discriminate |].
        intros n _. left. eexists. reflexivity.
    + split; [split; discriminate |].
      split; [reflexivity |]. split; [now left |].
      split; [discriminate |].
      intros n H. destruct (prev_date_str date); [discriminate H |].
      rewrite andb_false_l in H. discriminate H.
Qed.

(** X13: on a table that has no rows the lookup never returns a value, and
    raises the country-not-found error when the date's key is a column; the
    ranking query raises the date-not-found error for every date within the
    bounds, whether or not its key is a column; and the count of changed
    rows, when it returns, returns zero. *)
Theorem queries_without_rows
  (quicksort : argsort_kind) (day month year : Z) (g : globals) :
  rows (confirmed_cases g) = [] ->
  (forall v, fst (poland_cases_by_date day month year g) <> inr v)
  /\ (forall date,
        get_date_str day month year = inr date ->
        is_column (confirmed_cases g) date ->
        fst (poland_cases_by_date day month year g) = inl IndexError)
  /\ (in_bounds day month year ->
      fst (top5_countries_by_date quicksort day month year g)
      = inl KeyError)
  /\ (forall n,
        fst (no_new_cases_count day month year g) = inr n -> n = 0).
Proof.
  intros Hrows.
  split; [| split; [| split]].
  - intros v. rewrite poland_cases_by_date_run, Hrows. cbn [fst filter].
    destruct (get_date_str day month year) as [e | date]; [discriminate |].
    destruct (Pandas.has_column (confirmed_cases g) date); discriminate.
  - intros date Hdate Hcol.
    rewrite poland_cases_by_date_run, Hdate, Hrows.
    now rewrite (proj2 (has_column_In _ _) Hcol).
  - intros Hb.
    now rewrite (top5_countries_by_date_no_rows _ _ _ _ g _
                   (get_date_str_in_bounds _ _ _ Hb) Hrows).
  - intros n. rewrite no_new_cases_count_run. unfold changed_rows.
    rewrite Hrows. cbn [fst filter List.length Z.of_nat].
    destruct (get_date_str day month year) as [e | date]; [discriminate |].
    destruct (prev_date_str date); [discriminate |].
    destruct (_ && _); [| discriminate]. now intros [= <-].
Qed.

Lemma queries_without_rows_witness :
  (forall v,
      fst (poland_cases_by_date 1 1 2020 (mkGlobals no_rows)) <> inr v)
  /\ fst (poland_cases_by_date 1 1 2020 (mkGlobals no_rows))
     = inl IndexError
  /\ fst (top5_countries_by_date insertion_argsort 1 1 2020
            (mkGlobals no_rows)) = inl KeyError
  /\ (forall n,
        fst (no_new_cases_count 1 1 2020 (mkGlobals no_rows)) = inr n ->
        n = 0).
Proof.
  destruct (queries_without_rows insertion_argsort 1 1 2020
              (mkGlobals no_rows) eq_refl) as (H1 & H2 & H3 & H4).
  split; [exact H1 |]. split; [| split; [| exact H4]].
  - apply (H2 "1/1/20" eq_refl). left. reflexivity.
  - apply H3. unfold in_bounds. lia.
Defined.
